(** * FANTASY-SUP: the data fetcher [fetch_data.py]

    A shallow embedding of the fetch / normalise / join / persist pipeline
    of [fetch_data.py], and the properties of it that the specification
    states.

    Conventions of the embedding.
    - Python [int] is [Z]; [str] is [string]; a [dict] read from JSON is an
      association list with string keys; a [set] of strings is a [gset].
    - A Python exception is a value of [exn]; code that may raise returns
      an [outcome].
    - The network, the disk and the clock are inputs of the model (the
      record [Env]); the program state (the trace of calls and sleeps, the
      files written) is threaded explicitly. *)

From Stdlib Require Import ZArith QArith Lia String Ascii List Bool.
From stdpp Require Import base option list gmap strings.

Local Open Scope string_scope.
Local Open Scope list_scope.
Local Open Scope Z_scope.

(* ===================================================================== *)
(** * Exceptions and results *)
(* ===================================================================== *)

(** The exception classes the program distinguishes.  [ReadTimeout] and
    [ConnectionError] are subclasses of [RequestException]; the constructor
    [RequestException] stands for every other member of that class. *)
Inductive exn : Type :=
  | ReadTimeout
  | ConnectionError
  | RequestException
  | ValueError
  | TypeError
  | AttributeError
  | KeyError
  | OverflowError
  | OtherException (name : string).

(** [except (ReadTimeout, ConnectionError, RequestException)] *)
Definition is_request_exception (e : exn) : bool :=
  match e with
  | ReadTimeout | ConnectionError | RequestException => true
  | _ => false
  end.

Inductive outcome (A : Type) : Type :=
  | Ok (a : A)
  | Raise (e : exn).
Arguments Ok {A} a.
Arguments Raise {A} e.

Definition obind {A B} (x : outcome A) (f : A -> outcome B) : outcome B :=
  match x with
  | Ok a => f a
  | Raise e => Raise e
  end.

Declare Scope outcome_scope.
Delimit Scope outcome_scope with outcome.
Notation "'try!' x <- c1 'in' c2" := (obind c1 (fun x => c2))
  (at level 10, x name, c1 at level 100, c2 at level 200) : outcome_scope.
Local Open Scope outcome_scope.

(* ===================================================================== *)
(** * Python strings and integers *)
(* ===================================================================== *)

Module PyStr.

Definition digit_char (d : Z) : ascii := ascii_of_nat (48 + Z.to_nat d).

(** Decimal digits of a non-negative number, most significant first,
    pushed in front of [acc]. *)
Fixpoint str_digits (fuel : nat) (n : Z) (acc : string) : string :=
  let acc' := String (digit_char (n mod 10)) acc in
  match fuel with
  | O => acc'
  | S f => if n <? 10 then acc' else str_digits f (n / 10) acc'
  end.

(** [str(n)] for an [int]. *)
Definition str (n : Z) : string :=
  if n <? 0 then String "-" (str_digits (Z.to_nat (- n)) (- n) "")
  else str_digits (Z.to_nat n) n "".

(** [s[-k:]]: the last [k] characters, the whole string when it is
    shorter. *)
Definition last_chars (k : nat) (s : string) : string :=
  substring (String.length s - k) k s.

(** A number below 100 written with exactly two digits ("YY"). *)
Definition two_digits (n : Z) : string :=
  String (digit_char (n / 10)) (String (digit_char (n mod 10)) "").

End PyStr.
Import PyStr.

(* ===================================================================== *)
(** * Calendar dates ([datetime.date]) *)
(* ===================================================================== *)

Record date : Type := mk_date { year : Z; month : Z; day : Z }.

Definition MINYEAR : Z := 1.
Definition MAXYEAR : Z := 9999.

Definition is_leap (y : Z) : bool :=
  ((y mod 4 =? 0) && negb (y mod 100 =? 0)) || (y mod 400 =? 0).

Definition days_in_month (y m : Z) : Z :=
  if m =? 2 then (if is_leap y then 29 else 28)
  else if (m =? 4) || (m =? 6) || (m =? 9) || (m =? 11) then 30
  else 31.

Definition valid_date (d : date) : bool :=
  (MINYEAR <=? year d) && (year d <=? MAXYEAR) &&
  (1 <=? month d) && (month d <=? 12) &&
  (1 <=? day d) && (day d <=? days_in_month (year d) (month d)).

(** [datetime(y, m, d).date()]: [ValueError] outside the calendar. *)
Definition new_date (y m d : Z) : outcome date :=
  let r := mk_date y m d in
  if valid_date r then Ok r else Raise ValueError.

(** [d.replace(year=y)] *)
Definition replace_year (d : date) (y : Z) : outcome date :=
  new_date y (month d) (day d).

Definition next_day (d : date) : date :=
  if day d <? days_in_month (year d) (month d)
  then mk_date (year d) (month d) (day d + 1)
  else if month d <? 12 then mk_date (year d) (month d + 1) 1
  else mk_date (year d + 1) 1 1.

(** [d + timedelta(days=n)] for a small non-negative [n], by stepping. *)
Definition add_days (d : date) (n : nat) : date := Nat.iter n next_day d.

(** [d.toordinal()]: the proleptic Gregorian ordinal, day 1 = 0001-01-01. *)
Definition days_before_year (y : Z) : Z :=
  let p := y - 1 in p * 365 + p / 4 - p / 100 + p / 400.

Fixpoint days_before_month_from (y : Z) (m : nat) : Z :=
  match m with
  | O => 0
  | S k => days_before_month_from y k + days_in_month y (Z.of_nat (S k))
  end.

Definition days_before_month (y m : Z) : Z :=
  days_before_month_from y (Z.to_nat (m - 1)).

Definition toordinal (d : date) : Z :=
  days_before_year (year d) + days_before_month (year d) (month d) + day d.

(** [date.max.toordinal()], 9999-12-31. *)
Definition MAX_ORDINAL : Z := 3652059.

(** Dates inside the fetchers are carried as ordinals: only day arithmetic
    and comparison are done on them.  [d + timedelta(days=n)] raises
    [OverflowError] outside [date.min .. date.max]. *)
Definition ordinal_add (d n : Z) : outcome Z :=
  let r := d + n in
  if (1 <=? r) && (r <=? MAX_ORDINAL) then Ok r else Raise OverflowError.

(* ===================================================================== *)
(** * Season calculation ([main], the part before the fetches) *)
(* ===================================================================== *)

(** Lines 374-380: a server clock in 2024 is moved to 2025; 29 February
    has no counterpart in 2025 and is advanced by 365 days instead. *)
Definition server_year_fix (today : date) : date :=
  if year today =? 2024 then
    match replace_year today 2025 with
    | Ok d => d
    | Raise _ => add_days today 365
    end
  else today.

(** Lines 383-387: [f"{curr_year}-{str(curr_year+1)[-2:]}"] and its
    counterpart for the months before October. *)
Definition season_label (today : date) : string :=
  let curr_year := year today in
  if 10 <=? month today
  then str curr_year +:+ "-" +:+ last_chars 2 (str (curr_year + 1))
  else str (curr_year - 1) +:+ "-" +:+ last_chars 2 (str curr_year).

(** Lines 405-414: the bounds of the schedule fetch. *)
Definition season_bounds (today : date) : outcome (date * date) :=
  if 10 <=? month today then
    try! season_start <- new_date (year today) 10 1 in
    try! season_end <- new_date (year today + 1) 4 15 in
    Ok (season_start, season_end)
  else if month today <=? 4 then
    try! season_start <- new_date (year today - 1) 10 1 in
    try! season_end <- new_date (year today) 4 15 in
    Ok (season_start, season_end)
  else
    try! season_start <- new_date (year today) 10 1 in
    try! season_end <- new_date (year today + 1) 4 15 in
    Ok (season_start, season_end).

(** The season calculation as the specification words it: one October
    rollover rule for the label and for the bounds. *)
Module SeasonSpec.

Definition rollover_year (today : date) : Z :=
  if 10 <=? month today then year today else year today - 1.

Definition label (today : date) : string :=
  if 10 <=? month today
  then str (year today) +:+ "-" +:+ two_digits ((year today + 1) mod 100)
  else str (year today - 1) +:+ "-" +:+ two_digits (year today mod 100).

Definition bounds (today : date) : date * date :=
  (mk_date (rollover_year today) 10 1,
   mk_date (rollover_year today + 1) 4 15).

End SeasonSpec.

(* ===================================================================== *)
(** * The world outside: network calls and sleeps *)
(* ===================================================================== *)

(** What the program does to the outside, in order.  Printing is not
    modelled. *)
Inductive event : Type :=
  | Called                 (* one network request was issued *)
  | Slept (seconds : Q).   (* [time.sleep(seconds)] *)

(** [tick] counts the requests issued so far: the network answers a
    request as a function of it, so that an endpoint may fail and later
    recover. *)
Record NetState : Type := mk_net { tick : nat; trace : list event }.

(** Code with effects on a state [S] that may raise. *)
Definition M (S A : Type) : Type := S -> outcome A * S.

Definition ret {S A} (a : A) : M S A := fun s => (Ok a, s).

Definition raise {S A} (e : exn) : M S A := fun s => (Raise e, s).

Definition bind {S A B} (c : M S A) (f : A -> M S B) : M S B :=
  fun s =>
    match c s with
    | (Ok a, s') => f a s'
    | (Raise e, s') => (Raise e, s')
    end.

(** [try: c  except Exception: h] *)
Definition catch {S A} (c : M S A) (h : exn -> M S A) : M S A :=
  fun s =>
    match c s with
    | (Ok a, s') => (Ok a, s')
    | (Raise e, s') => h e s'
    end.

Definition lift {S A} (x : outcome A) : M S A := fun s => (x, s).

Declare Scope prog_scope.
Delimit Scope prog_scope with prog.
Notation "x <- c1 ;; c2" := (bind c1 (fun x => c2))
  (at level 100, c1 at next level, right associativity) : prog_scope.
Local Open Scope prog_scope.

Abbreviation Net := (M NetState).

Definition sleep (seconds : Q) : Net unit :=
  fun s => (Ok tt, mk_net (tick s) (trace s ++ [Slept seconds])).

(** One request whose answer is [op] at the current tick. *)
Definition call {A} (op : nat -> outcome A) : Net A :=
  fun s => (op (tick s), mk_net (S (tick s)) (trace s ++ [Called])).

(* ===================================================================== *)
(** * RetryPolicy: [retry_api_call] *)
(* ===================================================================== *)

Definition TIMEOUT : Z := 60.
Definition MAX_RETRIES : nat := 3.
Definition RETRY_DELAY : Z := 5.

Section Retry.
Context {A : Type}.
Variable func : Net A.
Variable retries : nat.
Variable delay : Z.

(** The body of [for i in range(retries)], over the indices still to
    run.  Falling out of the loop returns [None]. *)
Fixpoint retry_loop (indices : list nat) : Net (option A) :=
  match indices with
  | [] => ret None
  | i :: rest =>
      catch (bind func (fun a => ret (Some a)))
        (fun e =>
           if is_request_exception e then
             if Z.of_nat i <? Z.of_nat retries - 1 then
               let sleep_time := delay * (Z.of_nat i + 1) in
               bind (sleep (inject_Z sleep_time)) (fun _ => retry_loop rest)
             else raise e
           else raise e)
  end.

Definition retry_api_call : Net (option A) := retry_loop (seq 0 retries).

End Retry.

(** The trace of [count] failed attempts, each followed by its wait:
    attempt number [k] (counted from 1) is followed by [delay * k].  The
    first of them is attempt number [from + 1]. *)
Definition backoff_trace_from (delay : Z) (from count : nat) : list event :=
  flat_map (fun i => [Called; Slept (inject_Z (delay * (Z.of_nat i + 1)))])
           (seq from count).

Definition backoff_trace (delay : Z) (count : nat) : list event :=
  backoff_trace_from delay 0 count.

(** The answer of the retry policy when its last attempt is the one
    answered by [op t]. *)
Definition final_answer {A} (op : nat -> outcome A) (t : nat)
  : outcome (option A) :=
  match op t with
  | Ok a => Ok (Some a)
  | Raise e => Raise e
  end.

(* ===================================================================== *)
(** * JSON values as Python sees them *)
(* ===================================================================== *)

#[local] Set Warnings "-register-all".

(** The value [response.json()] returns.  JSON numbers are taken to be
    integers: the only numbers the program reads are team ids. *)
Inductive pyval : Type :=
  | VNone
  | VBool (b : bool)
  | VInt (n : Z)
  | VStr (s : string)
  | VList (items : list pyval)
  | VDict (fields : list (string * pyval)).

Module Py.

(** Lookup in a [dict], which holds each key once: the binding of the
    key. *)
Fixpoint assoc (k : string) (fields : list (string * pyval)) : option pyval :=
  match fields with
  | [] => None
  | (k', v) :: rest => if String.eqb k k' then Some v else assoc k rest
  end.

(** [d.get(k, default)]; only a [dict] has [get]. *)
Definition get (d : pyval) (k : string) (default : pyval) : outcome pyval :=
  match d with
  | VDict fields => Ok (match assoc k fields with Some v => v | None => default end)
  | _ => Raise AttributeError
  end.

(** [bool(v)], as used by [not v]. *)
Definition truthy (v : pyval) : bool :=
  match v with
  | VNone => false
  | VBool b => b
  | VInt n => negb (n =? 0)
  | VStr s => negb (String.eqb s "")
  | VList items => match items with [] => false | _ => true end
  | VDict fields => match fields with [] => false | _ => true end
  end.

Fixpoint chars (s : string) : list pyval :=
  match s with
  | EmptyString => []
  | String c rest => VStr (String c "") :: chars rest
  end.

(** [for x in v]: the items of a list, the characters of a string, the
    keys of a dict. *)
Definition iter (v : pyval) : outcome (list pyval) :=
  match v with
  | VList items => Ok items
  | VStr s => Ok (chars s)
  | VDict fields => Ok (map (fun kv => VStr (fst kv)) fields)
  | _ => Raise TypeError
  end.

(** [len(v)] *)
Definition len (v : pyval) : outcome Z :=
  match v with
  | VList items => Ok (Z.of_nat (length items))
  | VStr s => Ok (Z.of_nat (String.length s))
  | VDict fields => Ok (Z.of_nat (length fields))
  | _ => Raise TypeError
  end.

(** [v[0]] *)
Definition first (v : pyval) : outcome pyval :=
  match v with
  | VList (x :: _) => Ok x
  | VList [] => Raise (OtherException "IndexError")
  | VStr (String c _) => Ok (VStr (String c ""))
  | VStr EmptyString => Raise (OtherException "IndexError")
  | VDict _ => Raise KeyError
  | _ => Raise TypeError
  end.

(** [v == s] for a string literal [s]. *)
Definition eq_str (v : pyval) (s : string) : bool :=
  match v with
  | VStr s' => String.eqb s' s
  | _ => false
  end.

Fixpoint is_substring_from (fuel : nat) (needle hay : string) : bool :=
  String.prefix needle hay ||
  match fuel, hay with
  | S f, String _ rest => is_substring_from f needle rest
  | _, _ => false
  end.

(** [k in v] for a string literal [k]: a key of a dict, an item of a
    list, a substring of a string. *)
Definition contains (v : pyval) (k : string) : outcome bool :=
  match v with
  | VDict fields => Ok (match assoc k fields with Some _ => true | None => false end)
  | VList items => Ok (existsb (fun x => eq_str x k) items)
  | VStr s => Ok (is_substring_from (String.length s) k s)
  | _ => Raise TypeError
  end.

(** [v[k]] for a string literal [k]. *)
Definition getitem (v : pyval) (k : string) : outcome pyval :=
  match v with
  | VDict fields =>
      match assoc k fields with Some x => Ok x | None => Raise KeyError end
  | _ => Raise TypeError
  end.

(** [v in s] for a set [s] of strings: an unhashable value raises, a
    hashable value that is not a string is in no such set. *)
Definition in_str_set (v : pyval) (s : gset string) : outcome bool :=
  match v with
  | VStr x => Ok (bool_decide (x ∈ s))
  | VList _ | VDict _ => Raise TypeError
  | _ => Ok false
  end.

End Py.

(* ===================================================================== *)
(** * Data model *)
(* ===================================================================== *)

(** A Python [float], by its exact value; the program only copies them. *)
Definition pyfloat : Type := Q.

Record GameEntry : Type := mk_game {
  game_day : string;      (* 'date' *)
  team_id : Z;
  team_abbr : string;
  matchup : string;
  is_home : bool
}.

Module Schedule.
Record envelope : Type := mk {
  season : string;
  source : string;
  updated_at : string;
  games : list GameEntry
}.
End Schedule.

(** One row of the player table of the stats provider.  The table is
    taken to have the columns the code reads, with a number or a string
    in them as the provider sends them: a table without one of them makes
    the code raise a [KeyError], which the model does not have. *)
Record stat_row : Type := mk_row {
  PLAYER_ID : Z;
  PLAYER_NAME : string;
  TEAM_ABBREVIATION : string;
  GP : Z;
  MIN : pyfloat; PTS : pyfloat; REB : pyfloat; AST : pyfloat;
  STL : pyfloat; BLK : pyfloat; TOV : pyfloat;
  FG_PCT : pyfloat; FT_PCT : pyfloat; FG3M : pyfloat
}.

Record PlayerStatRecord : Type := mk_player {
  player_id : Z;
  name : string;
  team : string;
  gp : Z;
  min_avg : pyfloat; pts_avg : pyfloat; reb_avg : pyfloat;
  ast_avg : pyfloat; stl_avg : pyfloat; blk_avg : pyfloat;
  tov_avg : pyfloat; fg_pct : pyfloat; ft_pct : pyfloat;
  fg3m_avg : pyfloat;
  pts_tot : pyfloat; reb_tot : pyfloat; ast_tot : pyfloat;
  stl_tot : pyfloat; blk_tot : pyfloat; tov_tot : pyfloat;
  fg3m_tot : pyfloat
}.

Module PlayerStats.
Record envelope : Type := mk {
  season : string;
  period : string;
  date_from : option Z;     (* the ordinal of the date, [None] for null *)
  updated_at : string;
  players : list PlayerStatRecord
}.
End PlayerStats.

(** One row of the team table of the stats provider. *)
Record team_row : Type := mk_team_row {
  TEAM_ID : Z;
  DEF_RATING : pyfloat;
  W_PCT : pyfloat
}.

(** The team table; [has_def_rating] is ['DEF_RATING' in df.columns].
    The table is taken to have its other columns, [TEAM_ID] and [W_PCT],
    with numbers in them: a table without them makes the code raise a
    [KeyError], which the model does not have. *)
Record team_frame : Type := mk_frame {
  has_def_rating : bool;
  rows : list team_row
}.

Record TeamDefenseRating : Type := mk_rating {
  rating_team_abbr : string;    (* 'team_abbr' *)
  rank : Z;
  def_rating : pyfloat
}.

Module Ratings.
Record envelope : Type := mk {
  season : string;
  updated_at : string;
  teams : list TeamDefenseRating
}.
End Ratings.

(** What [save_json] is given to write. *)
Inductive document : Type :=
  | ScheduleDoc (e : Schedule.envelope)
  | PlayerStatsDoc (e : PlayerStats.envelope)
  | RatingsDoc (e : Ratings.envelope).

(** The content of a file of the data directory: a document written
    whole, or what a failed [json.dump] left behind. *)
Inductive file_content : Type :=
  | Complete (d : document)
  | Truncated.

(** How a write goes: [open] fails, [json.dump] fails after [open]
    emptied the file, or both succeed. *)
Inductive write_result : Type := OpenFails | DumpFails | Written.

Inductive per_mode : Type := PerGame | Totals.

(** [datetime.datetime], the fields the program's arithmetic depends on. *)
Record datetime : Type := mk_datetime {
  dt_date : date; hour : Z; minute : Z; second : Z
}.

(** The HTTP response of the schedule provider: [json] is the result of
    [response.json()]. *)
Record response : Type := mk_response { json : outcome pyval }.

(** Everything the program takes from outside its own source: library
    functions that are not part of the repository, the two providers, the
    clock and the disk. *)
Record Env : Type := mk_env {
  (* the standard library and pandas *)
  fromisoformat : string -> option datetime;   (* [None]: [ValueError] *)
  int_of_str : string -> option Z;             (* [int(s)], [None]: [ValueError] *)
  sort_values : (team_row -> pyfloat) -> bool -> list team_row -> list team_row;
  (* nba_api's static registry, [teams.get_teams()] as id / abbreviation *)
  get_teams : list (Z * string);
  (* the schedule provider, by date window and tick *)
  scoreboard : Z -> Z -> nat -> outcome response;
  (* the stats provider, by mode, season, date-from and tick *)
  player_table : per_mode -> string -> option Z -> nat -> outcome (list stat_row);
  team_table : string -> nat -> outcome team_frame;
  (* [datetime.now()] *)
  today_now : date;
  now_iso : nat -> string;
  (* the disk, by file name *)
  disk : string -> write_result
}.

(* ===================================================================== *)
(** * ScheduleFetcher: [fetch_schedule_espn] *)
(* ===================================================================== *)

(** The whitelist of line 115. *)
Definition nba_teams : gset string :=
  list_to_set
    ["ATL"; "BOS"; "BKN"; "CHA"; "CHI"; "CLE"; "DAL"; "DEN"; "DET"; "GS";
     "HOU"; "IND"; "LAC"; "LAL"; "MEM"; "MIA"; "MIL"; "MIN"; "NO"; "NY";
     "OKC"; "ORL"; "PHI"; "PHX"; "POR"; "SA"; "SAC"; "TOR"; "UTAH"; "WSH"].

(** [s.replace('Z', '+00:00')] *)
Fixpoint replace_Z (s : string) : string :=
  match s with
  | EmptyString => EmptyString
  | String c rest =>
      if Ascii.eqb c "Z" then "+00:00" +:+ replace_Z rest
      else String c (replace_Z rest)
  end.

(** [s.zfill(w)] for the digits of a non-negative number. *)
Definition zfill (w : nat) (s : string) : string :=
  Nat.iter (w - String.length s) (String "0") s.

(** [str(d)] for a date: [YYYY-MM-DD]. *)
Definition date_str (d : date) : string :=
  zfill 4 (str (year d)) +:+ "-" +:+ zfill 2 (str (month d)) +:+ "-" +:+
  zfill 2 (str (day d)).

(** The day before; there is none before [date.min]. *)
Definition prev_day (d : date) : outcome date :=
  let r :=
    if 1 <? day d then mk_date (year d) (month d) (day d - 1)
    else if 1 <? month d
         then mk_date (year d) (month d - 1) (days_in_month (year d) (month d - 1))
         else mk_date (year d - 1) 12 31 in
  if valid_date r then Ok r else Raise OverflowError.

(** [(dt + timedelta(hours=-5)).date()]: the wall clock moves back five
    hours, whatever the offset of [dt]. *)
Definition et_date (dt : datetime) : outcome date :=
  if 5 <=? hour dt then Ok (dt_date dt) else prev_day (dt_date dt).

(** The participants of an event: the competitors of its first
    competition, as the loop of line 105 goes through them; an event
    without competition has none (lines 90-96). *)
Definition participants (event : pyval) : outcome (list pyval) :=
  try! competitions <- Py.get event "competitions" (VList []) in
  if negb (Py.truthy competitions) then Ok [] else
  try! competition <- Py.first competitions in
  try! competitors <- Py.get competition "competitors" (VList []) in
  Py.iter competitors.

(** The team code of a participant, when it has one (lines 107-109 and
    121-122). *)
Definition code_of (participant : pyval) : option string :=
  match (try! its_team <- Py.get participant "team" (VDict []) in
         Py.get its_team "abbreviation" (VStr "")) with
  | Ok (VStr a) => Some a
  | _ => None
  end.

(** The participant has a code of the whitelist. *)
Definition listed (participant : pyval) : bool :=
  match code_of participant with
  | Some a => bool_decide (a ∈ nba_teams)
  | None => false
  end.

(** What an event comes to before anything is appended: it is passed
    over ([continue]), or two entries are to be built. *)
Inductive verdict : Type :=
  | Skip
  | Emit (game_date_only : string) (home_team away_team : pyval)
         (home_abbr away_abbr : string).

Section ScheduleFetcher.
Variable env : Env.

(** [int(v)] *)
Definition py_int (v : pyval) : outcome Z :=
  match v with
  | VInt n => Ok n
  | VBool b => Ok (if b then 1 else 0)
  | VStr s =>
      match int_of_str env s with
      | Some n => Ok n
      | None => Raise ValueError
      end
  | _ => Raise TypeError
  end.

(** Lines 105-109: the last competitor flagged ['home'] and the last
    one not so flagged. *)
Fixpoint find_home_away (competitors : list pyval)
         (home_team away_team : pyval) : outcome (pyval * pyval) :=
  match competitors with
  | [] => Ok (home_team, away_team)
  | competitor :: rest =>
      try! side <- Py.get competitor "homeAway" VNone in
      try! its_team <- Py.get competitor "team" (VDict []) in
      if Py.eq_str side "home"
      then find_home_away rest its_team away_team
      else find_home_away rest home_team its_team
  end.

(** Lines 129-139: the calendar date of the game in the fixed UTC-5
    offset; [None] when anything in the [try] raises. *)
Definition game_date_only (game_date : pyval) : option string :=
  match game_date with
  | VStr s =>
      match fromisoformat env (replace_Z s) with
      | Some game_datetime_utc =>
          match et_date game_datetime_utc with
          | Ok d => Some (date_str d)
          | Raise _ => None
          end
      | None => None
      end
  | _ => None
  end.

(** Lines 89-139 for one event. *)
Definition examine (event : pyval) : outcome verdict :=
  try! game_date <- Py.get event "date" (VStr "") in
  try! competitions <- Py.get event "competitions" (VList []) in
  if negb (Py.truthy competitions) then Ok Skip else
  try! competition <- Py.first competitions in
  try! competitors <- Py.get competition "competitors" (VList []) in
  try! n <- Py.len competitors in
  if n <? 2 then Ok Skip else
  try! each <- Py.iter competitors in
  try! found <- find_home_away each VNone VNone in
  let home_team := fst found in
  let away_team := snd found in
  if negb (Py.truthy home_team) || negb (Py.truthy away_team) then Ok Skip else
  try! home_abbr <- Py.get home_team "abbreviation" (VStr "") in
  try! away_abbr <- Py.get away_team "abbreviation" (VStr "") in
  try! home_listed <- Py.in_str_set home_abbr nba_teams in
  if negb home_listed then Ok Skip else
  try! away_listed <- Py.in_str_set away_abbr nba_teams in
  if negb away_listed then Ok Skip else
  match home_abbr, away_abbr, game_date_only game_date with
  | VStr h, VStr a, Some d => Ok (Emit d home_team away_team h a)
  | _, _, _ => Ok Skip
  end.

(** Lines 141-158: the two appends.  The entries appended and the
    exception that interrupted them, if any. *)
Definition emit (v : verdict) : list GameEntry * option exn :=
  match v with
  | Skip => ([], None)
  | Emit d home_team away_team home_abbr away_abbr =>
      match (try! i <- Py.get home_team "id" (VInt 0) in py_int i) with
      | Raise e => ([], Some e)
      | Ok home_id =>
          let home_entry :=
            mk_game d home_id home_abbr
                    (home_abbr +:+ " vs. " +:+ away_abbr) true in
          match (try! i <- Py.get away_team "id" (VInt 0) in py_int i) with
          | Raise e => ([home_entry], Some e)
          | Ok away_id =>
              let away_entry :=
                mk_game d away_id away_abbr
                        (away_abbr +:+ " @ " +:+ home_abbr) false in
              ([home_entry; away_entry], None)
          end
      end
  end.

(** The entries one event appends to [all_games]. *)
Definition process_event (event : pyval) : list GameEntry * option exn :=
  match examine event with
  | Raise e => ([], Some e)
  | Ok v => emit v
  end.

(** [for event in data['events']], until an exception leaves the loop. *)
Fixpoint process_events (events : list pyval) (all_games : list GameEntry)
  : list GameEntry * option exn :=
  match events with
  | [] => (all_games, None)
  | event :: rest =>
      match process_event event with
      | (new, Some e) => (all_games ++ new, Some e)
      | (new, None) => process_events rest (all_games ++ new)
      end
  end.

(** Lines 84-158: the body of the [try] once [data] is there. *)
Definition process_data (data : pyval) (all_games : list GameEntry)
  : list GameEntry * option exn :=
  match Py.contains data "events" with
  | Raise e => (all_games, Some e)
  | Ok false => (all_games, None)
  | Ok true =>
      match (try! events <- Py.getitem data "events" in
             try! n <- Py.len events in
             Py.iter events) with
      | Raise e => (all_games, Some e)
      | Ok events => process_events events all_games
      end
  end.

(** Lines 77-164: one window.  Every exception of the [try] is caught;
    the pause of line 161 is skipped when one was raised. *)
Definition fetch_chunk (current_date chunk_end : Z)
           (all_games : list GameEntry) : Net (list GameEntry) :=
  fun s =>
    match retry_api_call (call (scoreboard env current_date chunk_end))
                         MAX_RETRIES RETRY_DELAY s with
    | (Raise _, s') => (Ok all_games, s')
    | (Ok None, s') => (Ok all_games, s')
    | (Ok (Some resp), s') =>
        match json resp with
        | Raise _ => (Ok all_games, s')
        | Ok data =>
            match process_data data all_games with
            | (all_games', Some _) => (Ok all_games', s')
            | (all_games', None) =>
                bind (sleep (1 # 2)) (fun _ => ret all_games') s'
            end
        end
    end.

(** The [while current_date <= end_date] loop; [fuel] bounds the number
    of windows and [None] is the loop cut short by it. *)
Fixpoint chunk_loop (fuel : nat) (current_date end_date : Z)
         (all_games : list GameEntry) : Net (option (list GameEntry)) :=
  if negb (current_date <=? end_date) then ret (Some all_games) else
  match fuel with
  | O => ret None
  | S fuel' =>
      let chunk_size := 7 in
      week_end <- lift (ordinal_add current_date (chunk_size - 1)) ;;
      let chunk_end := Z.min week_end end_date in
      all_games' <- fetch_chunk current_date chunk_end all_games ;;
      next <- lift (ordinal_add chunk_end 1) ;;
      chunk_loop fuel' next end_date all_games'
  end.

(** One window per day of the range is more than the loop can take. *)
Definition enough_windows (start_date end_date : Z) : nat :=
  Z.to_nat (end_date - start_date + 1).

(** Lines 61-177.  The exception for a loop cut short by its bound is
    never raised ([fetch_schedule_espn_run]). *)
Definition fetch_schedule_espn (start_date end_date : Z)
  : Net (option Schedule.envelope) :=
  bind (chunk_loop (enough_windows start_date end_date)
                   start_date end_date [])
       (fun looped s =>
          match looped with
          | None => (Raise (OtherException "window bound"), s)
          | Some all_games =>
              let result :=
                Schedule.mk "2025-26" "ESPN API" (now_iso env (tick s))
                            all_games in
              (Ok (match all_games with [] => None | _ => Some result end), s)
          end).

End ScheduleFetcher.

(* ===================================================================== *)
(** * PlayerStatsFetcher: [fetch_player_stats] *)
(* ===================================================================== *)

(** Lines 240-247. *)
Definition team_abbr_map : gmap string string :=
  list_to_map
    [("GSW", "GS"); ("NOP", "NO"); ("NYK", "NY"); ("SAS", "SA");
     ("UTA", "UTAH"); ("WAS", "WSH")].

(** Line 250: [team_abbr_map.get(original_team, original_team)]. *)
Definition mapped_team (original_team : string) : string :=
  default original_team (team_abbr_map !! original_team).

(** [df[df['GP'] > 0]] *)
Definition active (df : list stat_row) : list stat_row :=
  List.filter (fun r => 0 <? GP r) df.

(** [df_tot[df_tot['PLAYER_ID'] == player_id]] *)
Definition rows_of_player (df_tot : list stat_row) (id : Z) : list stat_row :=
  List.filter (fun r => PLAYER_ID r =? id) df_tot.

(** Lines 252-276. *)
Definition merge (player_avg player_tot : stat_row) : PlayerStatRecord :=
  {| player_id := PLAYER_ID player_avg;
     name := PLAYER_NAME player_avg;
     team := mapped_team (TEAM_ABBREVIATION player_avg);
     gp := GP player_avg;
     min_avg := MIN player_avg; pts_avg := PTS player_avg;
     reb_avg := REB player_avg; ast_avg := AST player_avg;
     stl_avg := STL player_avg; blk_avg := BLK player_avg;
     tov_avg := TOV player_avg; fg_pct := FG_PCT player_avg;
     ft_pct := FT_PCT player_avg; fg3m_avg := FG3M player_avg;
     pts_tot := PTS player_tot; reb_tot := REB player_tot;
     ast_tot := AST player_tot; stl_tot := STL player_tot;
     blk_tot := BLK player_tot; tov_tot := TOV player_tot;
     fg3m_tot := FG3M player_tot |}.

(** Lines 226-276: [for _, player_avg in df_avg.iterrows()]. *)
Fixpoint players_data (df_avg df_tot : list stat_row) : list PlayerStatRecord :=
  match df_avg with
  | [] => []
  | player_avg :: rest =>
      match rows_of_player df_tot (PLAYER_ID player_avg) with
      | [] => players_data rest df_tot
      | player_tot :: _ => merge player_avg player_tot :: players_data rest df_tot
      end
  end.

(** [stats_obj.get_data_frames()[0]]; [retry_api_call] hands back [None]
    only when it is asked for no attempt at all. *)
Definition data_frame {A} (stats_obj : option A) : outcome A :=
  match stats_obj with
  | Some df => Ok df
  | None => Raise AttributeError
  end.

(** The records of what a fetch returned; none when it returned [None]. *)
Definition players_of (result : outcome (option PlayerStats.envelope))
  : list PlayerStatRecord :=
  match result with
  | Ok (Some e) => PlayerStats.players e
  | _ => []
  end.

Section StatsFetchers.
Variable env : Env.

(** Lines 185-206: the two requests, in per-game and in total mode. *)
Definition api_call_avg (season : string) (date_from : option Z)
  : Net (list stat_row) :=
  call (player_table env PerGame season date_from).

Definition api_call_tot (season : string) (date_from : option Z)
  : Net (list stat_row) :=
  call (player_table env Totals season date_from).

(** Lines 180-291. *)
Definition fetch_player_stats (season : string) (date_from : option Z)
           (label : string) : Net (option PlayerStats.envelope) :=
  catch
    (stats_obj_avg <- retry_api_call (api_call_avg season date_from)
                                     MAX_RETRIES RETRY_DELAY ;;
     df_avg <- lift (data_frame stats_obj_avg) ;;
     stats_obj_tot <- retry_api_call (api_call_tot season date_from)
                                     MAX_RETRIES RETRY_DELAY ;;
     df_tot <- lift (data_frame stats_obj_tot) ;;
     match df_avg with
     | [] => ret None
     | _ =>
         let df_avg := active df_avg in
         let df_tot := active df_tot in
         fun s =>
           (Ok (Some (PlayerStats.mk season label date_from
                                     (now_iso env (tick s))
                                     (players_data df_avg df_tot))), s)
     end)
    (fun _ => ret None).

(** [{team['id']: team['abbreviation'] for team in nba_teams}] *)
Definition id_to_abbr : gmap Z string :=
  foldl (fun m t => <[fst t := snd t]> m) ∅ (get_teams env).

(** [df['DEF_RANK'] = range(1, len(df) + 1)] and the loop of lines
    325-332, over the sorted rows. *)
Fixpoint ratings_data (with_rating : bool) (next_rank : Z)
         (df : list team_row) : list TeamDefenseRating :=
  match df with
  | [] => []
  | t :: rest =>
      mk_rating (default "UNK" (id_to_abbr !! TEAM_ID t)) next_rank
                (if with_rating then DEF_RATING t else inject_Z 0)
      :: ratings_data with_rating (next_rank + 1) rest
  end.

(** Lines 294-345. *)
Definition fetch_defensive_ratings (season : string)
  : Net (option Ratings.envelope) :=
  catch
    (stats_obj <- retry_api_call (call (team_table env season))
                                 MAX_RETRIES RETRY_DELAY ;;
     frame <- lift (data_frame stats_obj) ;;
     let df :=
       if has_def_rating frame
       then sort_values env DEF_RATING true (rows frame)
       else sort_values env W_PCT false (rows frame) in
     fun s =>
       (Ok (Some (Ratings.mk season (now_iso env (tick s))
                             (ratings_data (has_def_rating frame) 1 df))), s))
    (fun _ => ret None).

End StatsFetchers.

(* ===================================================================== *)
(** * PersistenceWriter: [save_json] *)
(* ===================================================================== *)

(** The program's state: the network side and the data directory. *)
Record World : Type := mk_world {
  net : NetState;
  files : gmap string file_content
}.

Abbreviation Run := (M World).

(** A fetcher run inside the program: it does not touch the files. *)
Definition in_net {A} (c : Net A) : Run A :=
  fun w =>
    match c (net w) with
    | (r, s') => (r, mk_world s' (files w))
    end.

Section Persistence.
Variable env : Env.

(** Lines 348-362.  Nothing raised by the write leaves the function. *)
Definition save_json (data : option document) (filename : string)
  : Run bool :=
  fun w =>
    match data with
    | None => (Ok false, w)
    | Some d =>
        match disk env filename with
        | OpenFails => (Ok false, w)
        | DumpFails =>
            (Ok false, mk_world (net w) (<[filename := Truncated]> (files w)))
        | Written =>
            (Ok true, mk_world (net w) (<[filename := Complete d]> (files w)))
        end
    end.

End Persistence.

(* ===================================================================== *)
(** * PipelineOrchestrator: [main] *)
(* ===================================================================== *)

(** The [results] dictionary: its five keys are fixed. *)
Record results : Type := mk_results {
  schedule : bool;
  player_stats_season : bool;
  player_stats_l7 : bool;
  player_stats_l14 : bool;
  defensive_ratings : bool
}.

(** [results.values()] *)
Definition values (r : results) : list bool :=
  [schedule r; player_stats_season r; player_stats_l7 r;
   player_stats_l14 r; defensive_ratings r].

(** [sum] over booleans: [True] counts 1. *)
Definition sum (l : list bool) : Z :=
  fold_right (fun b n => Z.b2z b + n) 0 l.

(** Lines 442-457: the argument of [sys.exit].  [total_count / 2] is the
    true division of Python 3. *)
Definition exit_status (r : results) : Z :=
  let success_count := sum (values r) in
  let total_count := Z.of_nat (length (values r)) in
  if Qle_bool (inject_Z total_count / inject_Z 2) (inject_Z success_count)
  then 0 else 1.

(** Line 418: the name of the schedule artifact. *)
Definition schedule_filename (current_season : string) : string :=
  "schedule_" +:+ current_season +:+ ".json".

Section Orchestrator.
Variable env : Env.

(** Lines 365-457.  The result is the exit status; an exception that
    leaves [main] is the [Raise] of the outcome. *)
Definition main : Run Z :=
  let today := server_year_fix (today_now env) in
  let current_season := season_label today in
  bounds <- lift (season_bounds today) ;;
  let season_start := fst bounds in
  let season_end := snd bounds in
  schedule_data <- in_net (fetch_schedule_espn env (toordinal season_start)
                                               (toordinal season_end)) ;;
  r_schedule <- save_json env (ScheduleDoc <$> schedule_data)
                          (schedule_filename current_season) ;;
  player_stats <- in_net (fetch_player_stats env current_season None "Season") ;;
  r_season <- save_json env (PlayerStatsDoc <$> player_stats)
                        "player_stats_season.json" ;;
  d7 <- lift (ordinal_add (toordinal today) (-7)) ;;
  player_stats_l7 <- in_net (fetch_player_stats env current_season (Some d7)
                                                "Last 7 Days") ;;
  r_l7 <- save_json env (PlayerStatsDoc <$> player_stats_l7)
                    "player_stats_l7.json" ;;
  d14 <- lift (ordinal_add (toordinal today) (-14)) ;;
  player_stats_l14 <- in_net (fetch_player_stats env current_season (Some d14)
                                                 "Last 14 Days") ;;
  r_l14 <- save_json env (PlayerStatsDoc <$> player_stats_l14)
                     "player_stats_l14.json" ;;
  def_ratings <- in_net (fetch_defensive_ratings env current_season) ;;
  r_def <- save_json env (RatingsDoc <$> def_ratings)
                     "defensive_ratings.json" ;;
  ret (exit_status (mk_results r_schedule r_season r_l7 r_l14 r_def)).

End Orchestrator.

(* ===================================================================== *)
(** * A concrete environment for the examples *)
(* ===================================================================== *)

Module Sample.

Definition digit_value (c : ascii) : option Z :=
  let n := Z.of_nat (nat_of_ascii c) in
  if (48 <=? n) && (n <=? 57) then Some (n - 48) else None.

Fixpoint digits_value (s : string) (acc : Z) : option Z :=
  match s with
  | EmptyString => Some acc
  | String c rest =>
      match digit_value c with
      | Some d => digits_value rest (10 * acc + d)
      | None => None
      end
  end.

(** [int(s)] on plain digit strings, the form of the provider's ids. *)
Definition int_of_digits (s : string) : option Z :=
  match s with
  | EmptyString => None
  | _ => digits_value s 0
  end.

(** [datetime.fromisoformat] on the shape of the provider's timestamps
    once [Z] is replaced: [YYYY-MM-DDTHH:MM+00:00]. *)
Definition fromisoformat_utc (s : string) : option datetime :=
  if negb (Nat.eqb (String.length s) 22) then None else
  if negb (String.eqb (substring 4 1 s) "-" && String.eqb (substring 7 1 s) "-" &&
           String.eqb (substring 10 1 s) "T" && String.eqb (substring 13 1 s) ":" &&
           String.eqb (substring 16 6 s) "+00:00") then None else
  match int_of_digits (substring 0 4 s), int_of_digits (substring 5 2 s),
        int_of_digits (substring 8 2 s), int_of_digits (substring 11 2 s),
        int_of_digits (substring 14 2 s) with
  | Some y, Some m, Some d, Some hh, Some mm =>
      if valid_date (mk_date y m d) && (hh <? 24) && (mm <? 60)
      then Some (mk_datetime (mk_date y m d) hh mm 0)
      else None
  | _, _, _, _, _ => None
  end.

Definition a_row (id : Z) (who club : string) (played : Z) (pts : Q) : stat_row :=
  mk_row id who club played (30 # 1) pts (5 # 1) (5 # 1) (1 # 1) (1 # 1)
         (2 # 1) (1 # 2) (4 # 5) (2 # 1).

Definition avg_rows : list stat_row :=
  [a_row 1 "Ann" "GSW" 10 (20 # 1); a_row 2 "Bob" "BOS" 0 (0 # 1);
   a_row 3 "Cy" "NYK" 4 (11 # 1); a_row 4 "Di" "LAL" 7 (9 # 1)].

Definition tot_rows : list stat_row :=
  [a_row 1 "Ann" "GSW" 10 (200 # 1); a_row 2 "Bob" "BOS" 0 (0 # 1);
   a_row 4 "Di" "LAL" 0 (0 # 1)].

Definition competitor (side id abbr : string) : pyval :=
  VDict [("homeAway", VStr side);
         ("team", VDict [("id", VStr id); ("abbreviation", VStr abbr)])].

Definition game (when : string) (competitors : list pyval) : pyval :=
  VDict [("date", VStr when);
         ("competitions", VList [VDict [("competitors", VList competitors)]])].

(** An event with three participants. *)
Definition three_way : pyval :=
  game "2025-10-22T23:30Z"
       [competitor "home" "1" "ATL"; competitor "away" "2" "BOS";
        competitor "away" "14" "MIA"].

Definition two_way : pyval :=
  game "2025-10-23T02:00Z" [competitor "home" "13" "LAL"; competitor "away" "9" "GS"].

(** The schedule provider answers every window with one game; the
    stats provider fails twice with a timeout, then answers; every
    write succeeds. *)
Definition env (today : date) : Env :=
  {| fromisoformat := fromisoformat_utc;
     int_of_str := int_of_digits;
     sort_values := fun _ _ l => l;
     get_teams := [(1610612737, "ATL"); (1610612738, "BOS")];
     scoreboard := fun _ _ _ =>
       Ok (mk_response (Ok (VDict [("events", VList [two_way])])));
     player_table := fun mode _ _ t =>
       if (t <? 3)%nat then Raise ReadTimeout
       else Ok (match mode with PerGame => avg_rows | Totals => tot_rows end);
     team_table := fun _ _ => Raise ConnectionError;
     today_now := today;
     now_iso := fun _ => "2025-11-15T08:00:00";
     disk := fun _ => Written |}.

Definition start : NetState := mk_net 0 [].

(** The team table answers at once, with two teams of which the registry
    knows one. *)
Definition with_teams (today : date) : Env :=
  {| fromisoformat := fromisoformat_utc;
     int_of_str := int_of_digits;
     sort_values := fun _ _ l => l;
     get_teams := [(1610612738, "BOS")];
     scoreboard := fun _ _ _ => Raise ConnectionError;
     player_table := fun _ _ _ _ => Raise ConnectionError;
     team_table := fun _ _ =>
       Ok (mk_frame true [mk_team_row 1610612738 (105 # 1) (7 # 10);
                          mk_team_row 7 (110 # 1) (1 # 2)]);
     today_now := today;
     now_iso := fun _ => "2025-11-15T08:00:00";
     disk := fun _ => Written |}.

(** A schedule provider that answers every window with one game, and
    one that does so only for the windows that start a whole number of
    weeks after [start_date]. *)
Definition one_game : Z -> Z -> nat -> outcome response :=
  fun _ _ _ => Ok (mk_response (Ok (VDict [("events", VList [two_way])]))).

Definition weeks_only (start_date : Z) : Z -> Z -> nat -> outcome response :=
  fun a b t =>
    if (a - start_date) mod 7 =? 0 then one_game a b t
    else Raise ConnectionError.

Definition five_rows : list stat_row :=
  [a_row 1 "Ann" "GSW" 10 (20 # 1); a_row 2 "Bob" "BOS" 8 (7 # 1);
   a_row 3 "Cy" "NYK" 4 (11 # 1); a_row 4 "Di" "LAL" 7 (9 # 1);
   a_row 5 "Ed" "MIA" 9 (15 # 1)].

(** The average-mode query answers with five players; the total-mode
    query fails with a timeout at every attempt. *)
Definition totals_down (today : date) : Env :=
  {| fromisoformat := fromisoformat_utc;
     int_of_str := int_of_digits;
     sort_values := fun _ _ l => l;
     get_teams := [];
     scoreboard := fun _ _ _ => Raise ConnectionError;
     player_table := fun mode _ _ _ =>
       match mode with PerGame => Ok five_rows | Totals => Raise ReadTimeout end;
     team_table := fun _ _ => Raise ConnectionError;
     today_now := today;
     now_iso := fun _ => "2025-11-15T08:00:00";
     disk := fun _ => Written |}.

(** The stats provider sends a body that is not JSON: building the
    result raises a [ValueError], which is no request failure. *)
Definition decode_error (today : date) : Env :=
  {| fromisoformat := fromisoformat_utc;
     int_of_str := int_of_digits;
     sort_values := fun _ _ l => l;
     get_teams := [];
     scoreboard := fun _ _ _ => Raise ConnectionError;
     player_table := fun _ _ _ _ => Raise ValueError;
     team_table := fun _ _ => Raise ConnectionError;
     today_now := today;
     now_iso := fun _ => "2025-11-15T08:00:00";
     disk := fun _ => Written |}.

(** An event with three participants, the second of which is no team of
    the league. *)
Definition with_outsider : pyval :=
  game "2025-10-23T02:00Z"
       [competitor "home" "13" "LAL"; competitor "away" "99" "MEL";
        competitor "away" "9" "GS"].

(** A disk on which the dump fails for the files named. *)
Definition disk_down (names : list string) : string -> write_result :=
  fun filename =>
    if existsb (String.eqb filename) names then DumpFails else Written.

End Sample.


(* ===================================================================== *)
(** * The settings page: [app.py] *)
(* ===================================================================== *)

(** [d.weekday()], Monday 0 to Sunday 6, of the date of ordinal [d]. *)
Definition weekday (d : Z) : Z := (d + 6) mod 7.

(** Lines 13-17 of [app.py]: the default end date, "this Sunday". *)
Definition days_until_sunday (today : Z) : Z := (6 - weekday today) mod 7.

Definition this_sunday (today : Z) : outcome Z :=
  ordinal_add today (days_until_sunday today).

(* ===================================================================== *)
(** * Notions used to state the properties *)
(* ===================================================================== *)

(** The environment with another schedule provider. *)
Definition with_scoreboard (env : Env)
           (provider : Z -> Z -> nat -> outcome response) : Env :=
  {| fromisoformat := fromisoformat env;
     int_of_str := int_of_str env;
     sort_values := sort_values env;
     get_teams := get_teams env;
     scoreboard := provider;
     player_table := player_table env;
     team_table := team_table env;
     today_now := today_now env;
     now_iso := now_iso env;
     disk := disk env |}.

(** The windows [fetch_schedule_espn] asks for: the [k]-th starts [7 * k]
    days after the start date and ends six days later, or at the end
    date when that comes first. *)
Definition is_window (start_date end_date a b : Z) : Prop :=
  exists k, 0 <= k /\ a = start_date + 7 * k /\ a <= end_date /\
            b = Z.min (a + 6) end_date.

(** The five artifacts of a run. *)
Definition artifact_names (current_season : string) : list string :=
  [schedule_filename current_season; "player_stats_season.json";
   "player_stats_l7.json"; "player_stats_l14.json"; "defensive_ratings.json"].

(** The file is there and holds a whole document. *)
Definition is_complete (content : option file_content) : bool :=
  match content with
  | Some (Complete _) => true
  | _ => false
  end.

(** The environment with another disk. *)
Definition with_disk (env : Env) (writes : string -> write_result) : Env :=
  {| fromisoformat := fromisoformat env;
     int_of_str := int_of_str env;
     sort_values := sort_values env;
     get_teams := get_teams env;
     scoreboard := scoreboard env;
     player_table := player_table env;
     team_table := team_table env;
     today_now := today_now env;
     now_iso := now_iso env;
     disk := writes |}.


(** The number of the artifact files of a run that hold a whole
    document. *)
Definition complete_artifacts (current_season : string) (w : World) : Z :=
  Z.of_nat (length (List.filter (fun name => is_complete (files w !! name))
                                (artifact_names current_season))).

(** A team, as selected at lines 105-109, has a code of the whitelist. *)
Definition team_listed (its_team : pyval) : bool :=
  match Py.get its_team "abbreviation" (VStr "") with
  | Ok (VStr a) => bool_decide (a ∈ nba_teams)
  | _ => false
  end.

(** A retried query "fails after exhausting its retries", as the
    specification words it: every one of the [MAX_RETRIES] attempts was
    made and the last one raised. *)
Definition fails_after_retries {A} (query : Net (option A)) (s : NetState)
  : Prop :=
  exists e s', query s = (Raise e, s') /\ tick s' = (tick s + MAX_RETRIES)%nat.

(** When the specification has the player-stats fetch return null: the
    average-mode query returns no rows, or one of the two queries fails
    after exhausting its retries. *)
Definition null_as_specified (env : Env) (season : string)
           (date_from : option Z) (s : NetState) : Prop :=
  let avg_query :=
    retry_api_call (api_call_avg env season date_from) MAX_RETRIES RETRY_DELAY in
  let tot_query :=
    retry_api_call (api_call_tot env season date_from) MAX_RETRIES RETRY_DELAY in
  fails_after_retries avg_query s \/
  exists df_avg s1,
    avg_query s = (Ok (Some df_avg), s1) /\
    (df_avg = [] \/ fails_after_retries tot_query s1).

(** How a retried query raises [e] from the state [s], leaving [s']: a
    request failure only as the answer of attempt number [MAX_RETRIES],
    an exception of another kind as the answer of the attempt at which it
    occurs; the attempts before the last all met request failures. *)
Definition raised_by {A} (op : nat -> outcome A) (s s' : NetState) (e : exn)
  : Prop :=
  exists failed : nat,
    (failed < MAX_RETRIES)%nat /\
    tick s' = (tick s + failed + 1)%nat /\
    (forall j, (j < failed)%nat ->
       exists e', op (tick s + j)%nat = Raise e' /\
                  is_request_exception e' = true) /\
    op (tick s + failed)%nat = Raise e /\
    (is_request_exception e = true -> (failed + 1)%nat = MAX_RETRIES).

(** An event is gone through without an exception. *)
Definition passes (env : Env) (event : pyval) : Prop :=
  snd (process_event env event) = None.

(* ===================================================================== *)
(** * Properties: strings and the season calculation *)
(* ===================================================================== *)

Example str_2025 : str 2025 = "2025". Proof. reflexivity. Qed.
Example str_10000 : str 10000 = "10000". Proof. reflexivity. Qed.
Example label_nov : season_label (mk_date 2025 11 15) = "2025-26".
Proof. reflexivity. Qed.
Example toordinal_max : toordinal (mk_date 9999 12 31) = MAX_ORDINAL.
Proof. reflexivity. Qed.
Example leap_day_fix :
  server_year_fix (mk_date 2024 2 29) = mk_date 2025 2 28.
Proof. vm_compute. reflexivity. Qed.

Lemma append_nil (b : string) : "" +:+ b = b.
Proof. reflexivity. Qed.

Lemma append_cons (x : ascii) (a b : string) :
  String x a +:+ b = String x (a +:+ b).
Proof. reflexivity. Qed.

Lemma append_assoc3 (a b c : string) : (a +:+ b) +:+ c = a +:+ (b +:+ c).
Proof.
  induction a as [| x a IH]; [reflexivity |].
  now rewrite !append_cons, IH.
Qed.

Lemma str_digits_acc (fuel : nat) :
  forall n acc, str_digits fuel n acc = str_digits fuel n "" +:+ acc.
Proof.
  induction fuel as [| fuel IH]; intros n acc; simpl; [reflexivity |].
  destruct (n <? 10); [reflexivity |].
  rewrite (IH _ (String _ acc)), (IH _ (String _ "")).
  now rewrite append_assoc3.
Qed.

(** Whatever the fuel, the digits end with the units digit. *)
Lemma str_digits_units (fuel : nat) (n : Z) :
  exists p, str_digits fuel n "" = p +:+ String (digit_char (n mod 10)) "".
Proof.
  destruct fuel as [| fuel]; simpl.
  - now exists "".
  - destruct (n <? 10).
    + now exists "".
    + rewrite str_digits_acc. eauto.
Qed.

Lemma length_append (a b : string) :
  String.length (a +:+ b) = (String.length a + String.length b)%nat.
Proof.
  induction a as [| x a IH]; [reflexivity |].
  rewrite append_cons. simpl. now rewrite IH.
Qed.

Lemma substring_skip (p : string) :
  forall m t, substring (String.length p) m (p +:+ t) = substring 0 m t.
Proof.
  induction p as [| x p IH]; intros m t; [reflexivity |].
  rewrite append_cons. simpl. apply IH.
Qed.

Lemma last_chars_two (p : string) (a b : ascii) :
  last_chars 2 (p +:+ String a (String b "")) = String a (String b "").
Proof.
  unfold last_chars. rewrite length_append. simpl String.length.
  replace (String.length p + 2 - 2)%nat with (String.length p) by lia.
  now rewrite substring_skip.
Qed.

(** The last two characters of [str n] are the two digits of [n mod 100],
    as soon as [n] has two digits. *)
Lemma last_chars_str (n : Z) :
  10 <= n -> last_chars 2 (str n) = two_digits (n mod 100).
Proof.
  intros Hn. unfold str.
  destruct (Z.ltb_spec n 0) as [Hneg | _]; [lia |].
  destruct (Z.to_nat n) as [| fuel] eqn:Hfuel; [lia |].
  simpl. destruct (Z.ltb_spec n 10) as [Hlt | _]; [lia |].
  rewrite str_digits_acc.
  destruct (str_digits_units fuel (n / 10)) as [p ->].
  rewrite append_assoc3, append_cons, append_nil, last_chars_two.
  unfold two_digits. f_equal; [| f_equal]; f_equal.
  - Z.to_euclidean_division_equations; lia.
  - Z.to_euclidean_division_equations; lia.
Qed.

Lemma new_date_ok (y m d : Z) :
  valid_date (mk_date y m d) = true -> new_date y m d = Ok (mk_date y m d).
Proof. unfold new_date. now intros ->. Qed.

Lemma oct_1_valid (y : Z) : 1 <= y <= 9999 -> valid_date (mk_date y 10 1) = true.
Proof.
  intros Hy. unfold valid_date, days_in_month, MINYEAR, MAXYEAR. simpl.
  rewrite !andb_true_r, andb_true_iff, !Z.leb_le. lia.
Qed.

Lemma apr_15_valid (y : Z) : 1 <= y <= 9999 -> valid_date (mk_date y 4 15) = true.
Proof.
  intros Hy. unfold valid_date, days_in_month, MINYEAR, MAXYEAR. simpl.
  rewrite !andb_true_r, andb_true_iff, !Z.leb_le. lia.
Qed.

(** The clock substitution of lines 375-380 touches the year 2024 only,
    and moves a date of that year into 2025. *)
Lemma server_year_fix_other (today : date) :
  year today <> 2024 -> server_year_fix today = today.
Proof.
  intros Hy. unfold server_year_fix.
  destruct (Z.eqb_spec (year today) 2024); [contradiction | reflexivity].
Qed.

Lemma server_year_fix_2024 (today : date) :
  year today = 2024 -> valid_date today = true ->
  year (server_year_fix today) = 2025.
Proof.
  intros Hy Hvalid. unfold server_year_fix, replace_year, new_date.
  rewrite Hy. cbn [Z.eqb Pos.eqb].
  destruct (valid_date (mk_date 2025 (month today) (day today))) eqn:H25;
    [reflexivity |].
  destruct today as [y m d]. cbn [year month day] in *. subst y.
  unfold valid_date, days_in_month, MINYEAR, MAXYEAR in *.
  cbn [year month day] in *.
  destruct (Z.eqb_spec m 2) as [-> | Hm].
  - assert (Hd : d = 29).
    { change (is_leap 2024) with true in Hvalid.
      change (is_leap 2025) with false in H25.
      rewrite !andb_true_iff, !Z.leb_le in Hvalid.
      rewrite !andb_false_iff, !Z.leb_gt in H25. lia. }
    subst d. reflexivity.
  - rewrite !andb_true_iff, !Z.leb_le in Hvalid.
    rewrite !andb_false_iff, !Z.leb_gt in H25. lia.
Qed.

(** C7. The season label follows the October rollover rule: for a
    reference date in month 10 or later it is the year, a dash and the
    two digits of the next year; otherwise the previous year, a dash and
    the two digits of the year.  2025-11-15 gives "2025-26" with bounds
    2025-10-01 to 2026-04-15, and 2025-03-01 gives "2024-25" with bounds
    2024-10-01 to 2025-04-15.  (The year has at least two digits.) *)
Theorem season_label_rollover :
  (forall today : date, 10 <= year today ->
     season_label today = SeasonSpec.label today) /\
  season_label (mk_date 2025 11 15) = "2025-26" /\
  season_bounds (mk_date 2025 11 15)
    = Ok (mk_date 2025 10 1, mk_date 2026 4 15) /\
  season_label (mk_date 2025 3 1) = "2024-25" /\
  season_bounds (mk_date 2025 3 1)
    = Ok (mk_date 2024 10 1, mk_date 2025 4 15).
Proof.
  split; [| repeat split; reflexivity].
  intros today Hy. unfold season_label, SeasonSpec.label.
  destruct (10 <=? month today).
  - rewrite last_chars_str by lia. reflexivity.
  - rewrite last_chars_str by lia. reflexivity.
Qed.

Lemma season_label_rollover_witness :
  10 <= year (mk_date 2025 11 15) /\
  season_label (mk_date 2025 11 15) = SeasonSpec.label (mk_date 2025 11 15).
Proof.
  split; [simpl; lia |].
  apply (proj1 season_label_rollover (mk_date 2025 11 15)). simpl; lia.
Defined.

(** C1, as stated, fails in the off-season: on 2025-07-01 the rollover
    rule of the label selects 2024, but the bounds computed are those of
    the season that starts in October 2025. *)
Lemma season_bounds_off_season_counterexample :
  SeasonSpec.bounds (mk_date 2025 7 1) = (mk_date 2024 10 1, mk_date 2025 4 15) /\
  season_bounds (mk_date 2025 7 1) = Ok (mk_date 2025 10 1, mk_date 2026 4 15) /\
  season_bounds (mk_date 2025 7 1) <> Ok (SeasonSpec.bounds (mk_date 2025 7 1)).
Proof. repeat split; try reflexivity. discriminate. Qed.

(** C1, amended.  The bounds are October 1 of the previous year and April
    15 of the reference year when the reference month is at most 4, and
    October 1 of the reference year and April 15 of the next year in every
    later month; so they follow the rollover rule of the label in January
    to April and October to December, and in May to September they are
    those of the season that starts in the coming October. *)
Theorem season_bounds_by_month (today : date) :
  2 <= year today <= 9998 ->
  season_bounds today =
    Ok (if month today <=? 4
        then (mk_date (year today - 1) 10 1, mk_date (year today) 4 15)
        else (mk_date (year today) 10 1, mk_date (year today + 1) 4 15)) /\
  (month today <= 4 \/ 10 <= month today ->
     season_bounds today = Ok (SeasonSpec.bounds today)) /\
  (5 <= month today <= 9 ->
     season_bounds today
       = Ok (mk_date (year today) 10 1, mk_date (year today + 1) 4 15)).
Proof.
  intros Hy.
  assert (Hcode : season_bounds today =
    Ok (if month today <=? 4
        then (mk_date (year today - 1) 10 1, mk_date (year today) 4 15)
        else (mk_date (year today) 10 1, mk_date (year today + 1) 4 15))).
  { unfold season_bounds.
    destruct (Z.leb_spec 10 (month today)) as [H10 | H10].
    - destruct (Z.leb_spec (month today) 4) as [H4 | _]; [lia |].
      now rewrite new_date_ok by (apply oct_1_valid; lia); simpl;
        rewrite new_date_ok by (apply apr_15_valid; lia).
    - destruct (Z.leb_spec (month today) 4) as [H4 | H4];
        now rewrite new_date_ok by (apply oct_1_valid; lia); simpl;
          rewrite new_date_ok by (apply apr_15_valid; lia). }
  split; [exact Hcode |]. split.
  - intros Hm. rewrite Hcode. unfold SeasonSpec.bounds, SeasonSpec.rollover_year.
    destruct (Z.leb_spec (month today) 4), (Z.leb_spec 10 (month today));
      try lia; repeat f_equal; lia.
  - intros Hm. rewrite Hcode.
    destruct (Z.leb_spec (month today) 4); [lia | reflexivity].
Qed.

Lemma season_bounds_by_month_witness :
  2 <= year (mk_date 2025 7 1) <= 9998 /\
  season_bounds (mk_date 2025 7 1)
    = Ok (mk_date 2025 10 1, mk_date 2026 4 15).
Proof.
  split; [simpl; lia |].
  apply (proj1 (season_bounds_by_month (mk_date 2025 7 1) ltac:(simpl; lia))).
Defined.

(* ===================================================================== *)
(** * Properties: the exit status and the team-code table *)
(* ===================================================================== *)

(** The comparison with [total_count / 2], a rational, in integers. *)
Lemma exit_status_integers (r : results) :
  exit_status r = if 5 <=? 2 * sum (values r) then 0 else 1.
Proof. destruct r as [[] [] [] [] []]; reflexivity. Qed.

(** The exit status as a function of the five flags alone: 0 exactly
    when at least half of them are successes, and 1 otherwise; three
    successes of five give 0 and two give 1. *)
Theorem exit_status_half (r : results) :
  (exit_status r = 0 <-> 5 <= 2 * sum (values r)) /\
  (exit_status r = 1 <-> 2 * sum (values r) < 5) /\
  (sum (values r) = 3 -> exit_status r = 0) /\
  (sum (values r) = 2 -> exit_status r = 1).
Proof.
  rewrite exit_status_integers.
  destruct (Z.leb_spec 5 (2 * sum (values r))); repeat split; intros; lia.
Qed.

Lemma exit_status_half_witness :
  sum (values (mk_results true false true false true)) = 3 /\
  exit_status (mk_results true false true false true) = 0 /\
  sum (values (mk_results false true false false true)) = 2 /\
  exit_status (mk_results false true false false true) = 1.
Proof.
  split; [reflexivity |]. split.
  - apply (proj1 (proj2 (proj2
      (exit_status_half (mk_results true false true false true))))).
    reflexivity.
  - split; [reflexivity |].
    apply (proj2 (proj2 (proj2
      (exit_status_half (mk_results false true false false true))))).
    reflexivity.
Defined.

(** The flag [save_json] returns is [True] exactly when the document is
    in the file afterwards because this call wrote it. *)
Lemma save_json_true (env : Env) (data : option document) (filename : string)
      (w w' : World) :
  save_json env data filename w = (Ok true, w') ->
  exists d, data = Some d /\ disk env filename = Written /\
            files w' = <[filename := Complete d]> (files w) /\ net w' = net w.
Proof.
  unfold save_json. destruct data as [d |]; [| discriminate].
  destruct (disk env filename); try discriminate.
  intros [= <-]. exists d. auto.
Qed.

Lemma mapped_team_values (c v : string) :
  team_abbr_map !! c = Some v ->
  In v ["GS"; "NO"; "NY"; "SA"; "UTAH"; "WSH"].
Proof.
  intros H. apply elem_of_list_to_map_2, list_elem_of_In in H. simpl in H.
  repeat (destruct H as [[= <- <-] | H]; [simpl; auto 10 |]).
  contradiction.
Qed.

(** C9. The remap of team codes is idempotent; a code of the schedule
    provider's scheme (the whitelist) and a code that is not a key of the
    six-entry table are returned unchanged. *)
Theorem mapped_team_idempotent (c : string) :
  mapped_team (mapped_team c) = mapped_team c /\
  (c ∈ nba_teams -> mapped_team c = c) /\
  (team_abbr_map !! c = None -> mapped_team c = c) /\
  size team_abbr_map = 6%nat.
Proof.
  repeat split.
  - unfold mapped_team.
    destruct (team_abbr_map !! c) as [v |] eqn:Hc; simpl; [| now rewrite Hc].
    apply mapped_team_values in Hc. simpl in Hc.
    repeat (destruct Hc as [<- | Hc]; [vm_compute; reflexivity |]).
    contradiction.
  - unfold nba_teams. rewrite elem_of_list_to_set, list_elem_of_In.
    simpl. intros Hc.
    repeat (destruct Hc as [<- | Hc]; [vm_compute; reflexivity |]).
    contradiction.
  - intros Hc. unfold mapped_team. now rewrite Hc.
Qed.

Lemma mapped_team_idempotent_witness :
  "GS" ∈ nba_teams /\ mapped_team "GS" = "GS" /\
  team_abbr_map !! "BOS" = None /\ mapped_team "BOS" = "BOS".
Proof.
  split; [vm_compute; tauto |]. split.
  - apply (proj1 (proj2 (mapped_team_idempotent "GS"))). vm_compute; tauto.
  - split; [reflexivity |].
    apply (proj1 (proj2 (proj2 (mapped_team_idempotent "BOS")))). reflexivity.
Defined.

(* ===================================================================== *)
(** * Properties: the retry policy *)
(* ===================================================================== *)

Section RetryProperties.
Context {A : Type}.
Variable op : nat -> outcome A.
Variable retries : nat.
Variable delay : Z.

Lemma retry_loop_run (k : nat) :
  forall (i : nat) (s : NetState),
    (i + S k = retries)%nat ->
    exists failed : nat,
      (failed <= k)%nat /\
      (forall j, (j < failed)%nat ->
         exists e, op (tick s + j) = Raise e /\ is_request_exception e = true) /\
      retry_loop (call op) retries delay (seq i (S k)) s =
        (final_answer op (tick s + failed),
         mk_net (tick s + failed + 1)
                (trace s ++ backoff_trace_from delay i failed ++ [Called])) /\
      (forall e, op (tick s + failed) = Raise e ->
         is_request_exception e = true -> failed = k).
Proof.
  induction k as [| k IH]; intros i s Hi.
  - exists 0%nat. rewrite Nat.add_0_r, Nat.add_1_r.
    split; [lia |]. split; [intros j Hj; lia |]. split; [| reflexivity].
    simpl. unfold catch, bind, call, final_answer.
    destruct (op (tick s)) as [a | e]; [reflexivity |].
    destruct (is_request_exception e); [| reflexivity].
    destruct (Z.ltb_spec (Z.of_nat i) (Z.of_nat retries - 1)); [lia |].
    reflexivity.
  - change (seq i (S (S k))) with (i :: seq (S i) (S k)).
    cbn [retry_loop]. unfold catch at 1, bind at 1, call at 1.
    destruct (op (tick s)) as [a | e] eqn:Hop.
    + exists 0%nat. rewrite Nat.add_0_r, Nat.add_1_r.
      split; [lia |]. split; [intros j Hj; lia |].
      unfold final_answer. rewrite Hop. split; [reflexivity |].
      intros e [=].
    + destruct (is_request_exception e) eqn:He.
      * destruct (Z.ltb_spec (Z.of_nat i) (Z.of_nat retries - 1)); [| lia].
        unfold bind at 1, sleep at 1. cbn [tick trace].
        destruct (IH (S i)
                     (mk_net (S (tick s))
                        ((trace s ++ [Called]) ++
                         [Slept (inject_Z (delay * (Z.of_nat i + 1)))])))
          as (failed & Hle & Hfail & Hrun & Hlast); [lia |].
        cbn [tick trace] in Hfail, Hrun, Hlast.
        exists (S failed). split; [lia |]. split; [| split].
        -- intros [| j] Hj.
           ++ rewrite Nat.add_0_r. eauto.
           ++ replace (tick s + S j)%nat with (S (tick s) + j)%nat by lia.
              apply Hfail. lia.
        -- rewrite Hrun.
           replace (tick s + S failed)%nat with (S (tick s) + failed)%nat by lia.
           f_equal. f_equal. unfold backoff_trace_from. cbn [seq flat_map].
           rewrite <- !app_assoc. reflexivity.
        -- replace (tick s + S failed)%nat with (S (tick s) + failed)%nat by lia.
           intros e' He' Ht. f_equal. eauto.
      * exists 0%nat. rewrite Nat.add_0_r, Nat.add_1_r.
        split; [lia |]. split; [intros j Hj; lia |].
        unfold final_answer. rewrite Hop. split; [reflexivity |].
        intros e' [= <-]. congruence.
Qed.

End RetryProperties.

(** C6. Around any operation, the retry policy makes at most [retries]
    attempts; after the failed attempt number [k] (a timeout, a connection
    failure or another request failure) it waits [delay * k] and tries
    again; it answers with the outcome of its last attempt, and a request
    failure is that outcome only at attempt number [retries]: the final
    failure is raised to the caller. *)
Theorem retry_api_call_backoff {A : Type} (op : nat -> outcome A)
        (retries : nat) (delay : Z) (s : NetState) :
  (0 < retries)%nat ->
  exists failed : nat,
    (failed + 1 <= retries)%nat /\
    (forall j, (j < failed)%nat ->
       exists e, op (tick s + j)%nat = Raise e /\ is_request_exception e = true) /\
    retry_api_call (call op) retries delay s =
      (final_answer op (tick s + failed)%nat,
       mk_net (tick s + failed + 1)%nat
              (trace s ++ backoff_trace delay failed ++ [Called])) /\
    (forall e, op (tick s + failed)%nat = Raise e ->
       is_request_exception e = true -> (failed + 1 = retries)%nat).
Proof.
  intros Hpos. destruct retries as [| k]; [lia |].
  destruct (retry_loop_run op (S k) delay k 0 s eq_refl)
    as (failed & Hle & Hfail & Hrun & Hlast).
  exists failed. split; [lia |]. split; [exact Hfail |]. split.
  - exact Hrun.
  - intros e He Ht. rewrite (Hlast e He Ht). lia.
Qed.

Lemma retry_api_call_backoff_witness :
  (0 < MAX_RETRIES)%nat /\
  retry_api_call (call (fun _ : nat => @Raise unit ReadTimeout))
                 MAX_RETRIES RETRY_DELAY (mk_net 0 [])
  = (Raise ReadTimeout,
     mk_net 3 [Called; Slept (inject_Z 5); Called; Slept (inject_Z 10); Called]).
Proof.
  assert (Hpos : (0 < MAX_RETRIES)%nat) by (unfold MAX_RETRIES; lia).
  split; [exact Hpos |].
  destruct (retry_api_call_backoff (fun _ : nat => @Raise unit ReadTimeout)
              MAX_RETRIES RETRY_DELAY (mk_net 0 []) Hpos)
    as (failed & _ & _ & Hrun & Hlast).
  assert (Hfailed : failed = 2%nat).
  { specialize (Hlast ReadTimeout eq_refl eq_refl). unfold MAX_RETRIES in Hlast. lia. }
  rewrite Hrun, Hfailed. reflexivity.
Defined.

(** With at least one attempt allowed the policy never falls out of its
    loop: its answer is a value of the operation or an exception. *)
Lemma retry_api_call_answers {A : Type} (op : nat -> outcome A)
      (retries : nat) (delay : Z) (s : NetState) :
  (0 < retries)%nat ->
  fst (retry_api_call (call op) retries delay s) <> Ok None.
Proof.
  intros Hpos. destruct retries as [| k]; [lia |].
  destruct (retry_loop_run op (S k) delay k 0 s eq_refl)
    as (failed & _ & _ & Hrun & _).
  unfold retry_api_call. rewrite Hrun.
  simpl. unfold final_answer. destruct (op _); discriminate.
Qed.

(* ===================================================================== *)
(** * Properties: the schedule fetcher *)
(* ===================================================================== *)

Lemma chars_length (s : string) : length (Py.chars s) = String.length s.
Proof. induction s as [| c s IH]; simpl; [reflexivity | now rewrite IH]. Qed.

Lemma iter_len (v : pyval) (items : list pyval) :
  Py.iter v = Ok items -> Py.len v = Ok (Z.of_nat (length items)).
Proof.
  destruct v; simpl; try discriminate; intros [= <-].
  - now rewrite chars_length.
  - reflexivity.
  - now rewrite length_map.
Qed.

Lemma len_iter (v : pyval) (n : Z) :
  Py.len v = Ok n -> exists items, Py.iter v = Ok items.
Proof. destruct v; simpl; try discriminate; eauto. Qed.

Lemma in_str_set_true (v : pyval) :
  Py.in_str_set v nba_teams = Ok true ->
  exists a, v = VStr a /\ a ∈ nba_teams.
Proof.
  destruct v; simpl; try discriminate.
  intros [= H]. apply bool_decide_eq_true in H. eauto.
Qed.

Section ScheduleProperties.
Variable env : Env.

(** What an event that reaches the appends has gone through. *)
Lemma examine_emit (event : pyval) (d : string) (home_team away_team : pyval)
      (h a : string) :
  examine env event = Ok (Emit d home_team away_team h a) ->
  exists ps,
    participants event = Ok ps /\ (2 <= length ps)%nat /\
    find_home_away ps VNone VNone = Ok (home_team, away_team) /\
    Py.truthy home_team = true /\ Py.truthy away_team = true /\
    Py.get home_team "abbreviation" (VStr "") = Ok (VStr h) /\
    Py.get away_team "abbreviation" (VStr "") = Ok (VStr a) /\
    h ∈ nba_teams /\ a ∈ nba_teams.
Proof.
  unfold examine, participants.
  destruct (Py.get event "date" (VStr "")) as [game_date |]; [simpl | discriminate].
  destruct (Py.get event "competitions" (VList [])) as [competitions |];
    [simpl | discriminate].
  destruct (Py.truthy competitions); [simpl | discriminate].
  destruct (Py.first competitions) as [competition |]; [simpl | discriminate].
  destruct (Py.get competition "competitors" (VList [])) as [competitors |];
    [simpl | discriminate].
  destruct (Py.len competitors) as [n |] eqn:Hlen; [simpl | discriminate].
  destruct (Z.ltb_spec n 2) as [| Hn]; [discriminate |].
  destruct (Py.iter competitors) as [ps |] eqn:Hiter; [simpl | discriminate].
  apply iter_len in Hiter. rewrite Hlen in Hiter. injection Hiter as ->.
  destruct (find_home_away ps VNone VNone) as [[ht at_] |] eqn:Hfind;
    [simpl | discriminate].
  destruct (Py.truthy ht) eqn:Hht; [simpl | discriminate].
  destruct (Py.truthy at_) eqn:Hat; [simpl | discriminate].
  destruct (Py.get ht "abbreviation" (VStr "")) as [home_abbr |] eqn:Hhome;
    [simpl | discriminate].
  destruct (Py.get at_ "abbreviation" (VStr "")) as [away_abbr |] eqn:Haway;
    [simpl | discriminate].
  destruct (Py.in_str_set home_abbr nba_teams) as [[] |] eqn:Hh;
    simpl; try discriminate.
  destruct (Py.in_str_set away_abbr nba_teams) as [[] |] eqn:Ha;
    simpl; try discriminate.
  apply in_str_set_true in Hh as (h' & -> & Hh).
  apply in_str_set_true in Ha as (a' & -> & Ha).
  destruct (game_date_only env game_date); [| discriminate].
  intros [= <- <- <- <- <-].
  exists ps. repeat split; auto. lia.
Qed.

(** Entries come from an event that reached the appends. *)
Lemma process_event_entries (event : pyval) :
  fst (process_event env event) <> [] ->
  exists d home_team away_team h a,
    examine env event = Ok (Emit d home_team away_team h a) /\
    forall g, In g (fst (process_event env event)) ->
              team_abbr g = h \/ team_abbr g = a.
Proof.
  unfold process_event.
  destruct (examine env event) as [[| d ht at_ h a] |]; simpl;
    try congruence.
  intros Hne. exists d, ht, at_, h, a. split; [reflexivity |].
  destruct (try! i <- Py.get ht "id" (VInt 0) in py_int env i);
    simpl in *; [| congruence].
  destruct (try! i <- Py.get at_ "id" (VInt 0) in py_int env i); simpl.
  - intros g [<- | [<- | []]]; simpl; auto.
  - intros g [<- | []]; simpl; auto.
Qed.

Lemma process_event_listed (event : pyval) :
  Forall (fun g => team_abbr g ∈ nba_teams) (fst (process_event env event)).
Proof.
  destruct (fst (process_event env event)) as [| g0 l] eqn:Hl; [constructor |].
  rewrite <- Hl.
  destruct (process_event_entries event) as (d & ht & at_ & h & a & Hex & Hin).
  { rewrite Hl. discriminate. }
  apply examine_emit in Hex as (_ & _ & _ & _ & _ & _ & _ & _ & Hh & Ha).
  apply List.Forall_forall. intros g Hg.
  destruct (Hin g Hg) as [-> | ->]; assumption.
Qed.

Lemma process_events_listed (events : list pyval) :
  forall all_games,
    Forall (fun g => team_abbr g ∈ nba_teams) all_games ->
    Forall (fun g => team_abbr g ∈ nba_teams)
           (fst (process_events env events all_games)).
Proof.
  induction events as [| event rest IH]; intros all_games Hall; simpl;
    [exact Hall |].
  pose proof (process_event_listed event) as Hnew.
  destruct (process_event env event) as [new [e |]]; simpl in *.
  - apply Forall_app; split; assumption.
  - apply IH, Forall_app; split; assumption.
Qed.

Lemma process_data_listed (data : pyval) (all_games : list GameEntry) :
  Forall (fun g => team_abbr g ∈ nba_teams) all_games ->
  Forall (fun g => team_abbr g ∈ nba_teams)
         (fst (process_data env data all_games)).
Proof.
  intros Hall. unfold process_data.
  destruct (Py.contains data "events") as [[] |]; simpl; try exact Hall.
  destruct (try! events <- Py.getitem data "events" in
            try! n <- Py.len events in Py.iter events);
    simpl; [now apply process_events_listed | exact Hall].
Qed.

(** A window never raises: whatever happens inside is caught. *)
Lemma fetch_chunk_ok (current_date chunk_end : Z)
      (all_games : list GameEntry) (s : NetState) :
  exists all_games' s',
    fetch_chunk env current_date chunk_end all_games s = (Ok all_games', s') /\
    (Forall (fun g => team_abbr g ∈ nba_teams) all_games ->
     Forall (fun g => team_abbr g ∈ nba_teams) all_games').
Proof.
  unfold fetch_chunk.
  destruct (retry_api_call _ MAX_RETRIES RETRY_DELAY s) as [[[resp |] |] s'];
    eauto.
  destruct (json resp) as [data |]; eauto.
  pose proof (process_data_listed data all_games) as Hdata.
  destruct (process_data env data all_games) as [all_games' [e |]];
    simpl in *; eauto.
Qed.

Lemma chunk_loop_run (fuel : nat) :
  forall current_date end_date all_games s,
    (Z.to_nat (end_date - current_date + 1) <= fuel)%nat ->
    Forall (fun g => team_abbr g ∈ nba_teams) all_games ->
    exists r s',
      chunk_loop env fuel current_date end_date all_games s = (r, s') /\
      (r = Raise OverflowError \/
       exists all_games',
         r = Ok (Some all_games') /\
         Forall (fun g => team_abbr g ∈ nba_teams) all_games').
Proof.
  induction fuel as [| fuel IH]; intros current_date end_date all_games s Hfuel Hall.
  - simpl. destruct (Z.leb_spec current_date end_date); [lia |].
    simpl. eauto 7.
  - cbn [chunk_loop].
    destruct (Z.leb_spec current_date end_date) as [Hle |];
      [| simpl; eauto 7].
    cbn [negb]. unfold bind at 1, lift at 1.
    unfold ordinal_add at 1.
    destruct ((1 <=? current_date + (7 - 1)) && (current_date + (7 - 1) <=? MAX_ORDINAL));
      [| simpl; eauto 7].
    unfold bind at 1.
    destruct (fetch_chunk_ok current_date
                (Z.min (current_date + (7 - 1)) end_date) all_games s)
      as (all_games' & s' & -> & Hall').
    unfold bind at 1, lift at 1. unfold ordinal_add at 1.
    destruct ((1 <=? Z.min (current_date + (7 - 1)) end_date + 1) &&
              (Z.min (current_date + (7 - 1)) end_date + 1 <=? MAX_ORDINAL));
      [| simpl; eauto 7].
    apply IH; [lia | auto].
Qed.

(** [fetch_schedule_espn] always comes back: with an envelope, with
    [None], or with the [OverflowError] of a date past [date.max]; the
    bound on the number of windows is never what ends the loop. *)
Lemma fetch_schedule_espn_run (start_date end_date : Z) (s : NetState) :
  exists r s',
    fetch_schedule_espn env start_date end_date s = (r, s') /\
    (r = Raise OverflowError \/ r = Ok None \/
     exists e,
       r = Ok (Some e) /\
       Schedule.season e = "2025-26" /\ Schedule.source e = "ESPN API" /\
       Schedule.games e <> [] /\
       Forall (fun g => team_abbr g ∈ nba_teams) (Schedule.games e)).
Proof.
  unfold fetch_schedule_espn, bind.
  destruct (chunk_loop_run (enough_windows start_date end_date)
              start_date end_date [] s (Nat.le_refl _) (List.Forall_nil _))
    as (r & s' & -> & [-> | (all_games & -> & Hall)]); [eauto 7 |].
  destruct all_games as [| g l]; [eauto 7 |].
  do 2 eexists. split; [reflexivity |]. right. right.
  eexists. repeat split; simpl; auto; discriminate.
Qed.

End ScheduleProperties.

(** C2, as stated, fails: an event with three participants is not
    passed over.  The last participant flagged home and the last one not
    flagged home are taken, and two entries are produced. *)
Lemma three_participants_counterexample :
  (exists ps, participants Sample.three_way = Ok ps /\ length ps = 3%nat) /\
  fst (process_event (Sample.env (mk_date 2025 11 15)) Sample.three_way)
  = [mk_game "2025-10-22" 1 "ATL" "ATL vs. MIA" true;
     mk_game "2025-10-22" 14 "MIA" "MIA @ ATL" false].
Proof. split; [eexists; split; reflexivity | reflexivity]. Qed.

(** C2, amended.  An event contributes entries only if it has at least
    two participants; an event with fewer than two participants is passed
    over and contributes nothing. *)
Theorem process_event_needs_two (env : Env) (event : pyval) :
  (fst (process_event env event) <> [] ->
   exists ps, participants event = Ok ps /\ (2 <= length ps)%nat) /\
  (forall ps, participants event = Ok ps -> (length ps < 2)%nat ->
              process_event env event = ([], None)).
Proof.
  split.
  - intros Hne.
    destruct (process_event_entries env event Hne)
      as (d & ht & at_ & h & a & Hex & _).
    apply examine_emit in Hex as (ps & Hps & Hlen & _). eauto.
  - intros ps Hps Hlen. unfold process_event, examine.
    unfold participants in Hps.
    destruct event as [| | | | | fields]; try discriminate Hps.
    cbn [Py.get obind] in *.
    destruct (Py.truthy _); cbn [negb] in *; [| reflexivity].
    destruct (Py.first _) as [competition |]; [| discriminate Hps].
    cbn [obind] in *.
    destruct (Py.get competition "competitors" (VList [])) as [competitors |];
      [| discriminate Hps].
    cbn [obind] in *. rewrite (iter_len _ _ Hps). cbn [obind].
    destruct (Z.ltb_spec (Z.of_nat (length ps)) 2); [reflexivity | lia].
Qed.

Lemma process_event_needs_two_witness :
  participants (Sample.game "2025-10-22T23:30Z" [Sample.competitor "home" "1" "ATL"])
  = Ok [Sample.competitor "home" "1" "ATL"] /\
  process_event (Sample.env (mk_date 2025 11 15))
    (Sample.game "2025-10-22T23:30Z" [Sample.competitor "home" "1" "ATL"])
  = ([], None).
Proof.
  split; [reflexivity |].
  apply (proj2 (process_event_needs_two _ _) [Sample.competitor "home" "1" "ATL"]).
  - reflexivity.
  - simpl. lia.
Defined.

(** With two participants, the teams found are theirs. *)
Lemma find_home_away_pair (p1 p2 home_team away_team : pyval) :
  find_home_away [p1; p2] VNone VNone = Ok (home_team, away_team) ->
  Py.truthy home_team = true -> Py.truthy away_team = true ->
  (Py.get p1 "team" (VDict []) = Ok home_team /\
   Py.get p2 "team" (VDict []) = Ok away_team) \/
  (Py.get p1 "team" (VDict []) = Ok away_team /\
   Py.get p2 "team" (VDict []) = Ok home_team).
Proof.
  cbn [find_home_away].
  destruct (Py.get p1 "homeAway" VNone) as [side1 |]; [| discriminate].
  destruct (Py.get p1 "team" (VDict [])) as [t1 |]; [| discriminate].
  cbn [obind].
  destruct (Py.get p2 "homeAway" VNone) as [side2 |];
    [| destruct (Py.eq_str side1 "home"); discriminate].
  destruct (Py.get p2 "team" (VDict [])) as [t2 |];
    [| destruct (Py.eq_str side1 "home"); discriminate].
  destruct (Py.eq_str side1 "home"); cbn [obind];
    destruct (Py.eq_str side2 "home");
    intros [= <- <-]; cbn [Py.truthy]; intros; try discriminate; auto.
Qed.

Lemma team_code_listed (p its_team : pyval) (a : string) :
  Py.get p "team" (VDict []) = Ok its_team ->
  Py.get its_team "abbreviation" (VStr "") = Ok (VStr a) ->
  a ∈ nba_teams -> listed p = true.
Proof.
  intros Hp Ht Ha. unfold listed, code_of. rewrite Hp. cbn [obind]. rewrite Ht.
  now apply bool_decide_eq_true.
Qed.

(** C8, as stated, fails for an event with more than two participants:
    with LAL at home and MEL and GS away, MEL is no code of the whitelist,
    yet the event is not discarded; the last participant not flagged home,
    GS, is the away team and the two entries of LAL and GS are
    produced. *)
Lemma unselected_participant_counterexample :
  participants Sample.with_outsider
  = Ok [Sample.competitor "home" "13" "LAL"; Sample.competitor "away" "99" "MEL";
        Sample.competitor "away" "9" "GS"] /\
  listed (Sample.competitor "away" "99" "MEL") = false /\
  fst (process_event (Sample.env (mk_date 2025 11 15)) Sample.with_outsider)
  = [mk_game "2025-10-22" 13 "LAL" "LAL vs. GS" true;
     mk_game "2025-10-22" 9 "GS" "GS @ LAL" false].
Proof. repeat split; reflexivity. Qed.

Lemma team_listed_code (its_team : pyval) (a : string) :
  Py.get its_team "abbreviation" (VStr "") = Ok (VStr a) ->
  a ∈ nba_teams -> team_listed its_team = true.
Proof.
  intros Ht Ha. unfold team_listed. rewrite Ht. now apply bool_decide_eq_true.
Qed.

(** C8, amended.  Every entry of the schedule envelope, and every entry
    an event appends, has a team code of the whitelist of thirty codes,
    so that no other code appears in the output.  An event is discarded
    when either of the two teams selected from it, that of the last
    participant flagged home and that of the last participant not flagged
    home, has a code that is not in the whitelist; for an event with
    exactly two participants these are its two participants. *)
Theorem schedule_entries_whitelisted (env : Env) :
  size nba_teams = 30%nat /\
  (forall start_date end_date s e s',
     fetch_schedule_espn env start_date end_date s = (Ok (Some e), s') ->
     forall g, In g (Schedule.games e) -> team_abbr g ∈ nba_teams) /\
  (forall event g, In g (fst (process_event env event)) ->
                   team_abbr g ∈ nba_teams) /\
  (forall event ps home_team away_team,
     participants event = Ok ps ->
     find_home_away ps VNone VNone = Ok (home_team, away_team) ->
     team_listed home_team = false \/ team_listed away_team = false ->
     fst (process_event env event) = []) /\
  (forall event p1 p2,
     participants event = Ok [p1; p2] ->
     listed p1 = false \/ listed p2 = false ->
     fst (process_event env event) = []).
Proof.
  split; [reflexivity |]. split; [| split; [| split]].
  - intros start_date end_date s e s' Hrun.
    destruct (fetch_schedule_espn_run env start_date end_date s)
      as (r & s1 & Heq & Hr).
    rewrite Hrun in Heq. injection Heq as <- <-.
    destruct Hr as [[=] | [[=] | (e' & [= <-] & _ & _ & _ & Hall)]].
    now apply List.Forall_forall.
  - intros event. apply List.Forall_forall, process_event_listed.
  - intros event ps home_team away_team Hps Hfind Hnot.
    destruct (fst (process_event env event)) as [| g0 l] eqn:Hl; [reflexivity |].
    exfalso.
    destruct (process_event_entries env event) as (d & ht & at_ & h & a & Hex & _).
    { rewrite Hl. discriminate. }
    apply examine_emit in Hex
      as (ps' & Hps' & _ & Hfind' & _ & _ & Hh & Ha & Hhin & Hain).
    rewrite Hps in Hps'. injection Hps' as <-.
    rewrite Hfind in Hfind'. injection Hfind' as <- <-.
    rewrite (team_listed_code _ _ Hh Hhin), (team_listed_code _ _ Ha Hain) in Hnot.
    destruct Hnot; discriminate.
  - intros event p1 p2 Hps Hnot.
    destruct (fst (process_event env event)) as [| g0 l] eqn:Hl; [reflexivity |].
    exfalso.
    destruct (process_event_entries env event) as (d & ht & at_ & h & a & Hex & _).
    { rewrite Hl. discriminate. }
    apply examine_emit in Hex
      as (ps & Hps' & _ & Hfind & Hht & Hat & Hh & Ha & Hhin & Hain).
    rewrite Hps in Hps'. injection Hps' as <-.
    destruct (find_home_away_pair _ _ _ _ Hfind Hht Hat) as [[H1 H2] | [H1 H2]].
    + rewrite (team_code_listed _ _ _ H1 Hh Hhin),
              (team_code_listed _ _ _ H2 Ha Hain) in Hnot.
      destruct Hnot; discriminate.
    + rewrite (team_code_listed _ _ _ H1 Ha Hain),
              (team_code_listed _ _ _ H2 Hh Hhin) in Hnot.
      destruct Hnot; discriminate.
Qed.

Lemma schedule_entries_whitelisted_witness :
  participants (Sample.game "2025-10-22T23:30Z"
                  [Sample.competitor "home" "13" "LAL";
                   Sample.competitor "away" "99" "MEL"])
  = Ok [Sample.competitor "home" "13" "LAL"; Sample.competitor "away" "99" "MEL"] /\
  listed (Sample.competitor "away" "99" "MEL") = false /\
  fst (process_event (Sample.env (mk_date 2025 11 15))
         (Sample.game "2025-10-22T23:30Z"
            [Sample.competitor "home" "13" "LAL";
             Sample.competitor "away" "99" "MEL"])) = [] /\
  find_home_away
    [Sample.competitor "home" "13" "LAL"; Sample.competitor "away" "9" "GS";
     Sample.competitor "away" "99" "MEL"] VNone VNone
  = Ok (VDict [("id", VStr "13"); ("abbreviation", VStr "LAL")],
        VDict [("id", VStr "99"); ("abbreviation", VStr "MEL")]) /\
  fst (process_event (Sample.env (mk_date 2025 11 15))
         (Sample.game "2025-10-22T23:30Z"
            [Sample.competitor "home" "13" "LAL";
             Sample.competitor "away" "9" "GS";
             Sample.competitor "away" "99" "MEL"])) = [].
Proof.
  split; [reflexivity |]. split; [reflexivity |]. split; [| split].
  - apply (proj2 (proj2 (proj2 (proj2 (schedule_entries_whitelisted _)))) _
             (Sample.competitor "home" "13" "LAL")
             (Sample.competitor "away" "99" "MEL")).
    + reflexivity.
    + right. reflexivity.
  - reflexivity.
  - apply (proj1 (proj2 (proj2 (proj2 (schedule_entries_whitelisted _)))) _
             [Sample.competitor "home" "13" "LAL";
              Sample.competitor "away" "9" "GS";
              Sample.competitor "away" "99" "MEL"]
             (VDict [("id", VStr "13"); ("abbreviation", VStr "LAL")])
             (VDict [("id", VStr "99"); ("abbreviation", VStr "MEL")])).
    + reflexivity.
    + reflexivity.
    + right. reflexivity.
Defined.

(* ===================================================================== *)
(** * Properties: the orchestrator and the schedule artifact *)
(* ===================================================================== *)

Lemma bind_ok {S A B : Type} (c : M S A) (f : A -> M S B) (s s' : S) (b : B) :
  bind c f s = (Ok b, s') ->
  exists a s1, c s = (Ok a, s1) /\ f a s1 = (Ok b, s').
Proof.
  unfold bind. destruct (c s) as [[a | e] s1]; [eauto | discriminate].
Qed.

Lemma lift_ok {S A : Type} (x : outcome A) (s s' : S) (a : A) :
  lift x s = (Ok a, s') -> x = Ok a /\ s' = s.
Proof. unfold lift. now intros [= -> ->]. Qed.

(** A fetcher leaves the files as they are. *)
Lemma in_net_files {A : Type} (c : Net A) (w w' : World) (r : outcome A) :
  in_net c w = (r, w') -> files w' = files w.
Proof.
  unfold in_net. destruct (c (net w)). now intros [= _ <-].
Qed.

(** A write leaves the files of other names as they are. *)
Lemma save_json_other (env : Env) (data : option document)
      (filename other : string) (w w' : World) (r : outcome bool) :
  save_json env data filename w = (r, w') -> filename <> other ->
  files w' !! other = files w !! other.
Proof.
  unfold save_json. intros Hsave Hne.
  destruct data as [d |]; [| now injection Hsave as _ <-].
  destruct (disk env filename); injection Hsave as _ <-; simpl;
    try reflexivity; now rewrite lookup_insert_ne.
Qed.

(** What a write leaves under its own name. *)
Lemma save_json_same (env : Env) (data : option document) (filename : string)
      (w w' : World) (r : outcome bool) :
  save_json env data filename w = (r, w') ->
  files w' !! filename = files w !! filename \/
  files w' !! filename = Some Truncated \/
  exists d, data = Some d /\ files w' !! filename = Some (Complete d).
Proof.
  unfold save_json. intros Hsave.
  destruct data as [d |]; [| injection Hsave as _ <-; auto].
  destruct (disk env filename); injection Hsave as _ <-; simpl; auto.
  - right. left. apply lookup_insert_eq.
  - right. right. exists d. split; [reflexivity | apply lookup_insert_eq].
Qed.

Lemma schedule_filename_other (current_season other : string) :
  In other ["player_stats_season.json"; "player_stats_l7.json";
            "player_stats_l14.json"; "defensive_ratings.json"] ->
  other <> schedule_filename current_season.
Proof.
  unfold schedule_filename. simpl.
  intros [<- | [<- | [<- | [<- | []]]]]; rewrite !append_cons; discriminate.
Qed.

(** C10. The season field of the envelope the schedule fetch returns is
    the literal "2025-26" whatever the dates asked for; [main] writes that
    envelope under the name made from the season it computed, so that the
    two disagree whenever the computed season is another one, as in the
    run of 2026-11-01, whose file [schedule_2026-27.json] holds an
    envelope of season "2025-26". *)
Theorem schedule_envelope_season :
  (forall env start_date end_date s e s',
     fetch_schedule_espn env start_date end_date s = (Ok (Some e), s') ->
     Schedule.season e = "2025-26") /\
  (forall env w code w',
     main env w = (Ok code, w') ->
     let filename :=
       schedule_filename (season_label (server_year_fix (today_now env))) in
     files w' !! filename = files w !! filename \/
     files w' !! filename = Some Truncated \/
     exists e, files w' !! filename = Some (Complete (ScheduleDoc e)) /\
               Schedule.season e = "2025-26") /\
  (season_label (server_year_fix (mk_date 2026 11 1)) = "2026-27" /\
   exists e,
     files (snd (main (Sample.env (mk_date 2026 11 1))
                      (mk_world Sample.start ∅)))
       !! "schedule_2026-27.json" = Some (Complete (ScheduleDoc e)) /\
     Schedule.season e = "2025-26").
Proof.
  assert (Hseason : forall env start_date end_date s e s',
     fetch_schedule_espn env start_date end_date s = (Ok (Some e), s') ->
     Schedule.season e = "2025-26").
  { intros env start_date end_date s e s' Hrun.
    destruct (fetch_schedule_espn_run env start_date end_date s)
      as (r & s1 & Heq & Hr).
    rewrite Hrun in Heq. injection Heq as <- <-.
    now destruct Hr as [[=] | [[=] | (e' & [= <-] & He & _)]]. }
  split; [exact Hseason |]. split.
  - intros env w code w' Hmain filename. unfold main in Hmain.
    apply bind_ok in Hmain as (bounds & w0 & Hbounds & Hmain).
    apply lift_ok in Hbounds as [_ ->].
    apply bind_ok in Hmain as (schedule_data & w1 & Hfetch & Hmain).
    apply bind_ok in Hmain as (r1 & w2 & Hsave & Hmain).
    apply bind_ok in Hmain as (ps & w3 & Hf3 & Hmain).
    apply bind_ok in Hmain as (r2 & w4 & Hs4 & Hmain).
    apply bind_ok in Hmain as (d7 & w5 & Hd7 & Hmain).
    apply lift_ok in Hd7 as [_ ->].
    apply bind_ok in Hmain as (ps7 & w5 & Hf5 & Hmain).
    apply bind_ok in Hmain as (r3 & w6 & Hs6 & Hmain).
    apply bind_ok in Hmain as (d14 & w7 & Hd14 & Hmain).
    apply lift_ok in Hd14 as [_ ->].
    apply bind_ok in Hmain as (ps14 & w7 & Hf7 & Hmain).
    apply bind_ok in Hmain as (r4 & w8 & Hs8 & Hmain).
    apply bind_ok in Hmain as (dr & w9 & Hf9 & Hmain).
    apply bind_ok in Hmain as (r5 & w10 & Hs10 & Hmain).
    injection Hmain as _ <-.
    fold filename in Hsave.
    assert (Hlater : files w10 !! filename = files w2 !! filename).
    { rewrite (save_json_other _ _ _ filename _ _ _ Hs10)
        by (apply schedule_filename_other; simpl; auto).
      rewrite (in_net_files _ _ _ _ Hf9).
      rewrite (save_json_other _ _ _ filename _ _ _ Hs8)
        by (apply schedule_filename_other; simpl; auto).
      rewrite (in_net_files _ _ _ _ Hf7).
      rewrite (save_json_other _ _ _ filename _ _ _ Hs6)
        by (apply schedule_filename_other; simpl; auto).
      rewrite (in_net_files _ _ _ _ Hf5).
      rewrite (save_json_other _ _ _ filename _ _ _ Hs4)
        by (apply schedule_filename_other; simpl; auto).
      now rewrite (in_net_files _ _ _ _ Hf3). }
    rewrite Hlater, <- (in_net_files _ _ _ _ Hfetch).
    destruct (save_json_same _ _ _ _ _ _ Hsave) as [H | [H | (d & Hd & H)]]; auto.
    right. right.
    destruct schedule_data as [e |]; [| discriminate].
    injection Hd as <-. exists e. split; [exact H |].
    unfold in_net in Hfetch.
    destruct (fetch_schedule_espn env _ _ (net w)) as [r s1] eqn:Hrun.
    injection Hfetch as -> _.
    exact (Hseason _ _ _ _ _ _ Hrun).
  - split; [reflexivity |].
    eexists. split; [vm_compute; reflexivity | reflexivity].
Qed.

Lemma schedule_envelope_season_witness :
  exists e s',
    fetch_schedule_espn (Sample.env (mk_date 2026 11 1))
                        (toordinal (mk_date 2026 10 1))
                        (toordinal (mk_date 2026 10 3)) Sample.start
    = (Ok (Some e), s') /\
    Schedule.season e = "2025-26".
Proof.
  eexists. eexists.
  assert (Hrun : fetch_schedule_espn (Sample.env (mk_date 2026 11 1))
                        (toordinal (mk_date 2026 10 1))
                        (toordinal (mk_date 2026 10 3)) Sample.start
                 = (Ok (Some _), _)) by (vm_compute; reflexivity).
  split; [exact Hrun |].
  exact (proj1 schedule_envelope_season _ _ _ _ _ _ Hrun).
Defined.

(* ===================================================================== *)
(** * Properties: the player statistics *)
(* ===================================================================== *)

Lemma rows_of_player_in (df_tot : list stat_row) (id : Z) (t : stat_row) :
  In t (rows_of_player df_tot id) <-> In t df_tot /\ PLAYER_ID t = id.
Proof.
  unfold rows_of_player. rewrite List.filter_In, Z.eqb_eq. reflexivity.
Qed.

Lemma active_in (df : list stat_row) (r : stat_row) :
  In r (active df) <-> In r df /\ 0 < GP r.
Proof. unfold active. rewrite List.filter_In, Z.ltb_lt. reflexivity. Qed.

(** The records of the join are the merged pairs of an average row and
    the first total row of the same player. *)
Lemma players_data_in (df_avg df_tot : list stat_row) (r : PlayerStatRecord) :
  In r (players_data df_avg df_tot) <->
  exists a t rest,
    In a df_avg /\ rows_of_player df_tot (PLAYER_ID a) = t :: rest /\
    r = merge a t.
Proof.
  induction df_avg as [| a0 df_avg IH]; simpl.
  - split; [intros [] | intros (a & t & rest & [] & _)].
  - destruct (rows_of_player df_tot (PLAYER_ID a0)) as [| t0 rest0] eqn:Hrows.
    + rewrite IH. split.
      * intros (a & t & rest & Ha & Ht & Hr). exists a, t, rest. auto.
      * intros (a & t & rest & [<- | Ha] & Ht & Hr); [congruence |].
        exists a, t, rest. auto.
    + simpl. rewrite IH. split.
      * intros [<- | (a & t & rest & Ha & Ht & Hr)].
        -- exists a0, t0, rest0. auto.
        -- exists a, t, rest. auto.
      * intros (a & t & rest & [<- | Ha] & Ht & Hr).
        -- left. congruence.
        -- right. exists a, t, rest. auto.
Qed.

Section PlayerStatsProperties.
Variable env : Env.
Variables (season : string) (date_from : option Z) (label : string).

(** The fetch, case by case on the two queries. *)
Lemma fetch_player_stats_run (s : NetState) :
  fetch_player_stats env season date_from label s =
  match retry_api_call (api_call_avg env season date_from)
                       MAX_RETRIES RETRY_DELAY s with
  | (Ok (Some df_avg), s1) =>
      match retry_api_call (api_call_tot env season date_from)
                           MAX_RETRIES RETRY_DELAY s1 with
      | (Ok (Some df_tot), s2) =>
          (match df_avg with
           | [] => Ok None
           | _ => Ok (Some (PlayerStats.mk season label date_from
                              (now_iso env (tick s2))
                              (players_data (active df_avg) (active df_tot))))
           end, s2)
      | (_, s2) => (Ok None, s2)
      end
  | (_, s1) => (Ok None, s1)
  end.
Proof.
  unfold fetch_player_stats, catch.
  unfold bind at 1.
  destruct (retry_api_call (api_call_avg env season date_from)
                           MAX_RETRIES RETRY_DELAY s)
    as [[[df_avg |] | e] s1]; try reflexivity.
  unfold bind at 1, lift at 1. cbn [data_frame]. unfold bind at 1.
  destruct (retry_api_call (api_call_tot env season date_from)
                           MAX_RETRIES RETRY_DELAY s1)
    as [[[df_tot |] | e] s2]; try reflexivity.
  unfold bind, lift. cbn [data_frame].
  destruct df_avg; reflexivity.
Qed.

End PlayerStatsProperties.

(** C3. Given the result sets of the two queries of a fetch, the output
    has a record for player [P] exactly when [P] has a row with
    [GP > 0] in the average-mode set and a row with [GP > 0] in the
    total-mode set; and every record of the output is the merge of two
    such rows of one player. *)
Theorem player_record_iff (env : Env) (season : string) (date_from : option Z)
        (label : string) (s s1 s2 : NetState) (df_avg df_tot : list stat_row) :
  retry_api_call (api_call_avg env season date_from) MAX_RETRIES RETRY_DELAY s
    = (Ok (Some df_avg), s1) ->
  retry_api_call (api_call_tot env season date_from) MAX_RETRIES RETRY_DELAY s1
    = (Ok (Some df_tot), s2) ->
  (forall P : Z,
     (exists r, In r (players_of (fst (fetch_player_stats env season date_from label s)))
                /\ player_id r = P) <->
     (exists a, In a df_avg /\ PLAYER_ID a = P /\ 0 < GP a) /\
     (exists t, In t df_tot /\ PLAYER_ID t = P /\ 0 < GP t)) /\
  (forall r,
     In r (players_of (fst (fetch_player_stats env season date_from label s))) ->
     exists a t,
       In a df_avg /\ 0 < GP a /\ In t df_tot /\ 0 < GP t /\
       PLAYER_ID t = PLAYER_ID a /\ r = merge a t).
Proof.
  intros Havg Htot. rewrite fetch_player_stats_run, Havg, Htot. cbn [fst].
  assert (Hout : players_of
            (match df_avg with
             | [] => Ok None
             | _ => Ok (Some (PlayerStats.mk season label date_from
                                (now_iso env (tick s2))
                                (players_data (active df_avg) (active df_tot))))
             end) = players_data (active df_avg) (active df_tot)).
  { destruct df_avg; reflexivity. }
  rewrite Hout. clear Hout.
  assert (Hrec : forall r,
    In r (players_data (active df_avg) (active df_tot)) ->
    exists a t,
      In a df_avg /\ 0 < GP a /\ In t df_tot /\ 0 < GP t /\
      PLAYER_ID t = PLAYER_ID a /\ r = merge a t).
  { intros r Hr. apply players_data_in in Hr as (a & t & rest & Ha & Hrows & ->).
    apply active_in in Ha as [Ha Hgp].
    assert (Ht : In t (rows_of_player (active df_tot) (PLAYER_ID a)))
      by (rewrite Hrows; now left).
    apply rows_of_player_in in Ht as [Ht Hid].
    apply active_in in Ht as [Ht Hgpt].
    exists a, t. auto 10. }
  split; [| exact Hrec].
  intros P. split.
  - intros (r & Hr & <-).
    destruct (Hrec r Hr) as (a & t & Ha & Hgp & Ht & Hgpt & Hid & ->).
    split; [exists a | exists t]; auto.
  - intros [(a & Ha & <- & Hgp) (t & Ht & Hid & Hgpt)].
    assert (Hin : In t (rows_of_player (active df_tot) (PLAYER_ID a))).
    { apply rows_of_player_in. split; [| exact Hid]. now apply active_in. }
    destruct (rows_of_player (active df_tot) (PLAYER_ID a)) as [| t0 rest] eqn:Hrows;
      [destruct Hin |].
    exists (merge a t0). split; [| reflexivity].
    apply players_data_in. exists a, t0, rest.
    split; [now apply active_in | auto].
Qed.

Lemma player_record_iff_witness :
  exists s1 s2,
    retry_api_call (api_call_avg (Sample.env (mk_date 2025 11 15)) "2025-26" None)
                   MAX_RETRIES RETRY_DELAY (mk_net 3 [])
      = (Ok (Some Sample.avg_rows), s1) /\
    retry_api_call (api_call_tot (Sample.env (mk_date 2025 11 15)) "2025-26" None)
                   MAX_RETRIES RETRY_DELAY s1
      = (Ok (Some Sample.tot_rows), s2) /\
    forall r,
      In r (players_of (fst (fetch_player_stats (Sample.env (mk_date 2025 11 15))
                               "2025-26" None "Season" (mk_net 3 [])))) ->
      exists a t,
        In a Sample.avg_rows /\ 0 < GP a /\ In t Sample.tot_rows /\ 0 < GP t /\
        PLAYER_ID t = PLAYER_ID a /\ r = merge a t.
Proof.
  exists (mk_net 4 [Called]), (mk_net 5 [Called; Called]).
  split; [reflexivity |]. split; [reflexivity |].
  apply (proj2 (player_record_iff (Sample.env (mk_date 2025 11 15)) "2025-26"
                  None "Season" (mk_net 3 []) (mk_net 4 [Called])
                  (mk_net 5 [Called; Called]) Sample.avg_rows Sample.tot_rows
                  eq_refl eq_refl)).
Defined.

(** C4, as stated, fails: when the stats provider sends a body that is
    not JSON, the average-mode query raises a [ValueError] at its first
    attempt, which is not retried, and the fetch returns [None] after one
    request; no query failed after exhausting its retries and none
    returned an empty table. *)
Lemma first_attempt_failure_counterexample :
  fetch_player_stats (Sample.decode_error (mk_date 2025 11 15)) "2025-26" None
                     "Season" Sample.start
  = (Ok None, mk_net 1 [Called]) /\
  ~ null_as_specified (Sample.decode_error (mk_date 2025 11 15)) "2025-26" None
                      Sample.start.
Proof.
  split; [reflexivity |].
  assert (Hrun : retry_api_call
                   (api_call_avg (Sample.decode_error (mk_date 2025 11 15))
                                 "2025-26" None)
                   MAX_RETRIES RETRY_DELAY Sample.start
                 = (Raise ValueError, mk_net 1 [Called])) by reflexivity.
  unfold null_as_specified, fails_after_retries.
  intros [(e & s' & Hq & Ht) | (df_avg & s1 & Hq & _)]; rewrite Hrun in Hq.
  - injection Hq as _ <-. discriminate Ht.
  - discriminate Hq.
Qed.

(** A retried query that raises does so as [raised_by] says. *)
Lemma retry_api_call_raised {A : Type} (op : nat -> outcome A)
      (s s' : NetState) (e : exn) :
  retry_api_call (call op) MAX_RETRIES RETRY_DELAY s = (Raise e, s') ->
  raised_by op s s' e.
Proof.
  intros Hq.
  destruct (retry_loop_run op MAX_RETRIES RETRY_DELAY 2 0 s eq_refl)
    as (failed & Hle & Hfail & Hrun & Hlast).
  unfold retry_api_call in Hq. change (seq 0 MAX_RETRIES) with (seq 0 3) in Hq.
  rewrite Hrun in Hq. injection Hq as Hanswer <-.
  unfold final_answer in Hanswer.
  destruct (op (tick s + failed)%nat) as [a | e'] eqn:Hop; [discriminate |].
  injection Hanswer as ->.
  exists failed. unfold MAX_RETRIES. cbn [tick].
  split; [lia |]. split; [reflexivity |]. split; [exact Hfail |].
  split; [exact Hop |]. intros He. rewrite (Hlast e eq_refl He). reflexivity.
Qed.

(** C4, amended.  For result sets with the columns the code reads, the
    fetch returns [None] exactly when the average-mode query returns no
    row or one of the two queries raises, and a query raises in one of
    two ways: with a request failure that is still there at the last of
    its attempts, or with an exception of another kind, raised at the
    attempt where it occurs and not retried.  Otherwise the fetch returns
    an envelope; and when it returned [None], [save_json] writes nothing:
    the files are those from before the fetch. *)
Theorem fetch_player_stats_null (env : Env) (season : string)
        (date_from : option Z) (label : string) :
  (forall s : NetState,
     fst (fetch_player_stats env season date_from label s) = Ok None <->
     (exists e s1,
        retry_api_call (api_call_avg env season date_from)
                       MAX_RETRIES RETRY_DELAY s = (Raise e, s1) /\
        raised_by (player_table env PerGame season date_from) s s1 e) \/
     (exists df_avg s1,
        retry_api_call (api_call_avg env season date_from)
                       MAX_RETRIES RETRY_DELAY s = (Ok (Some df_avg), s1) /\
        (df_avg = [] \/
         exists e s2,
           retry_api_call (api_call_tot env season date_from)
                          MAX_RETRIES RETRY_DELAY s1 = (Raise e, s2) /\
           raised_by (player_table env Totals season date_from) s1 s2 e))) /\
  (forall s : NetState,
     fst (fetch_player_stats env season date_from label s) = Ok None \/
     exists e, fst (fetch_player_stats env season date_from label s) = Ok (Some e)) /\
  (forall (w w1 : World) (filename : string),
     in_net (fetch_player_stats env season date_from label) w = (Ok None, w1) ->
     save_json env (PlayerStatsDoc <$> None) filename w1 = (Ok false, w1) /\
     files w1 = files w).
Proof.
  split; [| split].
  - intros s. rewrite fetch_player_stats_run.
    pose proof (retry_api_call_answers (player_table env PerGame season date_from)
                  MAX_RETRIES RETRY_DELAY s) as Havg.
    pose proof (retry_api_call_raised (player_table env PerGame season date_from) s)
      as Hravg.
    unfold api_call_avg, api_call_tot.
    destruct (retry_api_call (call (player_table env PerGame season date_from))
                             MAX_RETRIES RETRY_DELAY s)
      as [[[df_avg |] | e] s1]; cbn [fst] in *.
    + pose proof (retry_api_call_answers (player_table env Totals season date_from)
                    MAX_RETRIES RETRY_DELAY s1) as Htot.
      pose proof (retry_api_call_raised (player_table env Totals season date_from) s1)
        as Hrtot.
      destruct (retry_api_call (call (player_table env Totals season date_from))
                               MAX_RETRIES RETRY_DELAY s1)
        as [[[df_tot |] | e] s2] eqn:Hrun; cbn [fst] in *.
      * split.
        -- intros Hnone. right. exists df_avg, s1. split; [reflexivity |].
           left. destruct df_avg; [reflexivity | discriminate].
        -- intros [(e & s' & [=] & _)
                  | (df & s' & [= <- <-] & [-> | (e & s2' & Hq & _)])];
             [reflexivity |].
           rewrite Hrun in Hq. discriminate Hq.
      * exfalso. apply Htot; [unfold MAX_RETRIES; lia | reflexivity].
      * split; [| reflexivity]. intros _. right. exists df_avg, s1.
        split; [reflexivity |]. right. exists e, s2.
        split; [exact Hrun | now apply Hrtot].
    + exfalso. apply Havg; [unfold MAX_RETRIES; lia | reflexivity].
    + split; [| reflexivity]. intros _. left. exists e, s1.
      split; [reflexivity | now apply Hravg].
  - intros s. rewrite fetch_player_stats_run.
    destruct (retry_api_call (api_call_avg env season date_from) _ _ s)
      as [[[df_avg |] | e] s1]; cbn [fst]; auto.
    destruct (retry_api_call (api_call_tot env season date_from) _ _ s1)
      as [[[df_tot |] | e] s2]; cbn [fst]; auto.
    destruct df_avg; eauto.
  - intros w w1 filename Hfetch. split; [reflexivity |].
    exact (in_net_files _ _ _ _ Hfetch).
Qed.

(** Scenario B: the average-mode query answers with five players and the
    total-mode query fails at each of its three attempts. *)
Lemma fetch_player_stats_null_witness :
  in_net (fetch_player_stats (Sample.totals_down (mk_date 2025 11 15))
            "2025-26" None "Season") (mk_world Sample.start ∅)
  = (Ok None,
     mk_world (mk_net 4 [Called; Called; Slept (inject_Z 5); Called;
                         Slept (inject_Z 10); Called]) ∅) /\
  save_json (Sample.totals_down (mk_date 2025 11 15)) (PlayerStatsDoc <$> None)
            "player_stats_season.json"
            (mk_world (mk_net 4 [Called; Called; Slept (inject_Z 5); Called;
                                 Slept (inject_Z 10); Called]) ∅)
  = (Ok false,
     mk_world (mk_net 4 [Called; Called; Slept (inject_Z 5); Called;
                         Slept (inject_Z 10); Called]) ∅).
Proof.
  assert (Hrun : in_net (fetch_player_stats (Sample.totals_down (mk_date 2025 11 15))
            "2025-26" None "Season") (mk_world Sample.start ∅)
  = (Ok None,
     mk_world (mk_net 4 [Called; Called; Slept (inject_Z 5); Called;
                         Slept (inject_Z 10); Called]) ∅))
    by (vm_compute; reflexivity).
  split; [exact Hrun |].
  exact (proj1 (proj2 (proj2 (fetch_player_stats_null
           (Sample.totals_down (mk_date 2025 11 15)) "2025-26" None "Season"))
           _ _ "player_stats_season.json" Hrun)).
Defined.

(* ===================================================================== *)
(** * Further properties: the calendar *)
(* ===================================================================== *)

Lemma days_before_year_step (y : Z) :
  days_before_year (y + 1) = days_before_year y + (if is_leap y then 366 else 365).
Proof.
  unfold days_before_year, is_leap.
  replace (y + 1 - 1) with y by lia.
  destruct (Z.eqb_spec (y mod 4) 0), (Z.eqb_spec (y mod 100) 0),
           (Z.eqb_spec (y mod 400) 0); cbn [andb orb negb];
    Z.to_euclidean_division_equations; lia.
Qed.

Lemma new_date_inv (y m d : Z) (r : date) :
  new_date y m d = Ok r -> r = mk_date y m d /\ valid_date r = true.
Proof.
  unfold new_date. destruct (valid_date (mk_date y m d)) eqn:Hv; [| discriminate].
  intros [= <-]. auto.
Qed.

Lemma days_before_october (y : Z) :
  days_before_month y 10 = 273 + (if is_leap y then 1 else 0).
Proof.
  unfold days_before_month. simpl. unfold days_in_month. simpl.
  destruct (is_leap y); reflexivity.
Qed.

Lemma days_before_april (y : Z) :
  days_before_month y 4 = 90 + (if is_leap y then 1 else 0).
Proof.
  unfold days_before_month. simpl. unfold days_in_month. simpl.
  destruct (is_leap y); reflexivity.
Qed.

(** X1. Whenever the season bounds are computed, the start is before the
    end and the two are 196 days apart, 197 when the season ends in a leap
    year: the schedule fetch of [main] always gets a range in order. *)
Theorem season_bounds_span (today season_start season_end : date) :
  season_bounds today = Ok (season_start, season_end) ->
  toordinal season_end - toordinal season_start
    = (if is_leap (year season_end) then 197 else 196) /\
  toordinal season_start < toordinal season_end /\
  year season_end = year season_start + 1.
Proof.
  assert (Hspan : forall y,
    toordinal (mk_date (y + 1) 4 15) - toordinal (mk_date y 10 1)
    = if is_leap (y + 1) then 197 else 196).
  { intros y. unfold toordinal. cbn [year month day].
    rewrite days_before_year_step, days_before_october, days_before_april.
    destruct (is_leap y), (is_leap (y + 1)); lia. }
  assert (Hcase : forall y y' s e,
    y' = y + 1 ->
    (try! a <- new_date y 10 1 in try! b <- new_date y' 4 15 in Ok (a, b))
    = Ok (s, e) ->
    toordinal e - toordinal s = (if is_leap (year e) then 197 else 196) /\
    toordinal s < toordinal e /\ year e = year s + 1).
  { intros y y' s e ->.
    destruct (new_date y 10 1) as [a |] eqn:Ha; [| discriminate].
    destruct (new_date (y + 1) 4 15) as [b |] eqn:Hb; [| discriminate].
    apply new_date_inv in Ha as [-> _]. apply new_date_inv in Hb as [-> _].
    intros [= <- <-]. cbn [year]. specialize (Hspan y).
    destruct (is_leap (y + 1)); repeat split; lia. }
  unfold season_bounds.
  destruct (10 <=? month today); [now apply Hcase |].
  destruct (month today <=? 4); [| now apply Hcase].
  apply Hcase. lia.
Qed.

Lemma season_bounds_span_witness :
  season_bounds (mk_date 2027 12 24)
    = Ok (mk_date 2027 10 1, mk_date 2028 4 15) /\
  toordinal (mk_date 2028 4 15) - toordinal (mk_date 2027 10 1) = 197.
Proof.
  split; [reflexivity |].
  exact (proj1 (season_bounds_span (mk_date 2027 12 24) _ _ eq_refl)).
Defined.

Lemma leap_day_2024 (m d : Z) :
  valid_date (mk_date 2024 m d) = true ->
  valid_date (mk_date 2025 m d) = false -> m = 2 /\ d = 29.
Proof.
  unfold valid_date, days_in_month, MINYEAR, MAXYEAR. cbn [year month day].
  intros Hvalid H25.
  destruct (Z.eqb_spec m 2) as [-> | Hm].
  - change (is_leap 2024) with true in Hvalid.
    change (is_leap 2025) with false in H25.
    rewrite !andb_true_iff, !Z.leb_le in Hvalid.
    rewrite !andb_false_iff, !Z.leb_gt in H25. lia.
  - rewrite !andb_true_iff, !Z.leb_le in Hvalid.
    rewrite !andb_false_iff, !Z.leb_gt in H25. lia.
Qed.

(** X2. The clock substitution keeps a date a date and leaves no date in
    2024: a date of another year is untouched, a date of 2024 becomes the
    same day of 2025, and 29 February 2024 becomes 28 February 2025.
    Applying it twice changes nothing more. *)
Theorem server_year_fix_calendar (today : date) :
  valid_date today = true ->
  valid_date (server_year_fix today) = true /\
  year (server_year_fix today) <> 2024 /\
  (year today <> 2024 -> server_year_fix today = today) /\
  (year today = 2024 ->
     server_year_fix today =
       if (month today =? 2) && (day today =? 29) then mk_date 2025 2 28
       else mk_date 2025 (month today) (day today)) /\
  server_year_fix (server_year_fix today) = server_year_fix today.
Proof.
  intros Hvalid.
  assert (Hfix : year today = 2024 ->
     server_year_fix today =
       if (month today =? 2) && (day today =? 29) then mk_date 2025 2 28
       else mk_date 2025 (month today) (day today)).
  { intros Hy. destruct today as [y m d]. cbn [year month day] in *. subst y.
    unfold server_year_fix, replace_year, new_date. cbn [year month day Z.eqb Pos.eqb].
    destruct (valid_date (mk_date 2025 m d)) eqn:H25.
    - destruct (Z.eqb_spec m 2) as [-> | _]; [| reflexivity].
      destruct (Z.eqb_spec d 29) as [-> | _]; [discriminate H25 | reflexivity].
    - destruct (leap_day_2024 m d Hvalid H25) as [-> ->]. reflexivity. }
  assert (Hvalid' : valid_date (server_year_fix today) = true).
  { destruct (Z.eq_dec (year today) 2024) as [Hy | Hy];
      [| now rewrite server_year_fix_other].
    rewrite (Hfix Hy).
    destruct ((month today =? 2) && (day today =? 29)) eqn:Hleap; [reflexivity |].
    destruct (valid_date (mk_date 2025 (month today) (day today))) eqn:H25;
      [reflexivity |].
    destruct today as [y m d]. cbn [year month day] in *. subst y.
    destruct (leap_day_2024 m d Hvalid H25) as [-> ->]. discriminate Hleap. }
  assert (Hyear : year (server_year_fix today) <> 2024).
  { destruct (Z.eq_dec (year today) 2024) as [Hy | Hy].
    - rewrite (server_year_fix_2024 today Hy Hvalid). lia.
    - now rewrite server_year_fix_other. }
  repeat split; auto.
  - apply server_year_fix_other.
  - now apply server_year_fix_other.
Qed.

Lemma server_year_fix_calendar_witness :
  valid_date (mk_date 2024 12 25) = true /\
  server_year_fix (mk_date 2024 12 25) = mk_date 2025 12 25.
Proof.
  split; [reflexivity |].
  exact (proj1 (proj2 (proj2 (proj2
           (server_year_fix_calendar (mk_date 2024 12 25) eq_refl)))) eq_refl).
Defined.

(** X3. The default end date of the settings page is the first Sunday
    from today on: it is a Sunday, at most six days ahead, and today
    itself when today is a Sunday. *)
Theorem this_sunday_is_sunday (today : Z) :
  1 <= today -> today + 6 <= MAX_ORDINAL ->
  exists sunday,
    this_sunday today = Ok sunday /\
    weekday sunday = 6 /\
    today <= sunday <= today + 6 /\
    (forall d, today <= d < sunday -> weekday d <> 6) /\
    (weekday today = 6 -> sunday = today).
Proof.
  intros Hlo Hhi. unfold this_sunday, ordinal_add.
  assert (Hdays : 0 <= days_until_sunday today <= 6).
  { unfold days_until_sunday.
    pose proof (Z.mod_pos_bound (6 - weekday today) 7). lia. }
  destruct (Z.leb_spec 1 (today + days_until_sunday today)); [| lia].
  destruct (Z.leb_spec (today + days_until_sunday today) MAX_ORDINAL); [| lia].
  cbn [andb]. eexists. split; [reflexivity |].
  unfold days_until_sunday, weekday in *.
  repeat split; try lia.
  - Z.to_euclidean_division_equations; lia.
  - intros d Hd. Z.to_euclidean_division_equations; lia.
  - intros H6. Z.to_euclidean_division_equations; lia.
Qed.

Lemma this_sunday_is_sunday_witness :
  1 <= toordinal (mk_date 2025 11 12) /\
  toordinal (mk_date 2025 11 12) + 6 <= MAX_ORDINAL /\
  exists sunday,
    this_sunday (toordinal (mk_date 2025 11 12)) = Ok sunday /\
    weekday sunday = 6 /\
    toordinal (mk_date 2025 11 12) <= sunday <= toordinal (mk_date 2025 11 12) + 6.
Proof.
  assert (Hlo : 1 <= toordinal (mk_date 2025 11 12)) by (vm_compute; discriminate).
  assert (Hhi : toordinal (mk_date 2025 11 12) + 6 <= MAX_ORDINAL)
    by (vm_compute; discriminate).
  split; [exact Hlo |]. split; [exact Hhi |].
  destruct (this_sunday_is_sunday (toordinal (mk_date 2025 11 12)) Hlo Hhi)
    as (sunday & Hs & Hw & Hrange & _).
  exists sunday. auto.
Defined.

(* ===================================================================== *)
(** * Further properties: the retry policy *)
(* ===================================================================== *)

(** X4. An operation that answers at its first attempt, or fails there
    with an exception that is not a request failure, is attempted once:
    its value is returned, or its exception raised, with no wait and no
    second attempt. *)
Theorem retry_api_call_at_once {A : Type} (op : nat -> outcome A)
        (retries : nat) (delay : Z) (s : NetState) :
  (0 < retries)%nat ->
  (forall e, op (tick s) = Raise e -> is_request_exception e = false) ->
  retry_api_call (call op) retries delay s
  = (final_answer op (tick s), mk_net (S (tick s)) (trace s ++ [Called])).
Proof.
  intros Hpos Hkind. destruct retries as [| k]; [lia |].
  unfold retry_api_call. change (seq 0 (S k)) with (0%nat :: seq 1 k).
  cbn [retry_loop]. unfold catch, bind at 1, call, final_answer.
  destruct (op (tick s)) as [a | e] eqn:Hop; [reflexivity |].
  now rewrite (Hkind e eq_refl).
Qed.

Lemma retry_api_call_at_once_witness :
  (0 < MAX_RETRIES)%nat /\
  retry_api_call (call (fun _ : nat => @Raise unit ValueError))
                 MAX_RETRIES RETRY_DELAY (mk_net 0 [])
  = (Raise ValueError, mk_net 1 [Called]).
Proof.
  assert (Hpos : (0 < MAX_RETRIES)%nat) by (unfold MAX_RETRIES; lia).
  split; [exact Hpos |].
  apply (retry_api_call_at_once (fun _ : nat => @Raise unit ValueError)
           MAX_RETRIES RETRY_DELAY (mk_net 0 []) Hpos).
  intros e [= <-]. reflexivity.
Defined.

(** The policy looks at the operation only through its answers. *)
Lemma retry_loop_ext {A : Type} (op1 op2 : nat -> outcome A)
      (retries : nat) (delay : Z) :
  (forall t, op1 t = op2 t) ->
  forall indices s,
    retry_loop (call op1) retries delay indices s
    = retry_loop (call op2) retries delay indices s.
Proof.
  intros Hop. induction indices as [| i rest IH]; intros s; [reflexivity |].
  cbn [retry_loop]. unfold catch, bind at 1 3, call. rewrite Hop.
  destruct (op2 (tick s)) as [a | e]; [reflexivity |].
  destruct (is_request_exception e); [| reflexivity].
  destruct (Z.of_nat i <? Z.of_nat retries - 1); [| reflexivity].
  unfold bind, sleep. apply IH.
Qed.

(** The number of requests of one retried operation. *)
Lemma retry_api_call_ticks {A : Type} (op : nat -> outcome A)
      (retries : nat) (delay : Z) (s : NetState) :
  (0 < retries)%nat ->
  (tick s + 1 <= tick (snd (retry_api_call (call op) retries delay s))
   <= tick s + retries)%nat.
Proof.
  intros Hpos. destruct retries as [| k]; [lia |].
  destruct (retry_loop_run op (S k) delay k 0 s eq_refl)
    as (failed & Hle & _ & Hrun & _).
  unfold retry_api_call. rewrite Hrun. cbn [snd tick]. lia.
Qed.

(* ===================================================================== *)
(** * Further properties: the schedule fetcher *)
(* ===================================================================== *)

(** X5. What one event appends is nothing, or the home entry followed
    by the away entry, of the same day, with the two matchup strings
    ["H vs. A"] and ["A @ H"] over two whitelisted codes; the home entry
    stands alone only when an exception interrupted the away entry. *)
Theorem process_event_shape (env : Env) (event : pyval) :
  fst (process_event env event) = [] \/
  exists d h a home_id,
    h ∈ nba_teams /\ a ∈ nba_teams /\
    ((fst (process_event env event)
        = [mk_game d home_id h (h +:+ " vs. " +:+ a) true] /\
      snd (process_event env event) <> None) \/
     (exists away_id,
        process_event env event
        = ([mk_game d home_id h (h +:+ " vs. " +:+ a) true;
            mk_game d away_id a (a +:+ " @ " +:+ h) false], None))).
Proof.
  unfold process_event.
  destruct (examine env event) as [[| d ht at_ h a] |] eqn:Hex; cbn [emit fst];
    auto.
  apply examine_emit in Hex as (_ & _ & _ & _ & _ & _ & _ & _ & Hh & Ha).
  destruct (try! i <- Py.get ht "id" (VInt 0) in py_int env i) as [home_id |];
    cbn [fst]; auto.
  right. exists d, h, a, home_id. split; [exact Hh |]. split; [exact Ha |].
  destruct (try! i <- Py.get at_ "id" (VInt 0) in py_int env i) as [away_id |];
    cbn [fst snd].
  - right. eauto.
  - left. split; [reflexivity | discriminate].
Qed.

Lemma process_events_extends (env : Env) (events : list pyval) :
  forall all_games,
    exists new, fst (process_events env events all_games) = all_games ++ new.
Proof.
  induction events as [| event rest IH]; intros all_games; cbn [process_events].
  - exists []. now rewrite app_nil_r.
  - destruct (process_event env event) as [new [e |]]; cbn [fst]; [eauto |].
    destruct (IH (all_games ++ new)) as (more & ->).
    exists (new ++ more). now rewrite app_assoc.
Qed.

(** X6. The events of a window are gone through in order, each one
    appending after the entries before it; the first event that raises
    ends the loop, keeping what was appended up to there, and the events
    after it are not looked at. *)
Theorem process_events_in_order (env : Env) (before after : list pyval)
        (all_games : list GameEntry) :
  process_events env (before ++ after) all_games
  = match process_events env before all_games with
    | (collected, None) => process_events env after collected
    | (collected, Some e) => (collected, Some e)
    end /\
  exists new, fst (process_events env (before ++ after) all_games)
              = all_games ++ new.
Proof.
  split; [| apply process_events_extends].
  revert all_games. induction before as [| event rest IH]; intros all_games;
    [reflexivity |].
  cbn [app process_events].
  destruct (process_event env event) as [new [e |]]; [reflexivity | apply IH].
Qed.

Lemma process_data_extends (env : Env) (data : pyval) (all_games : list GameEntry) :
  exists new, fst (process_data env data all_games) = all_games ++ new.
Proof.
  unfold process_data.
  destruct (Py.contains data "events") as [[] |]; cbn [fst];
    try (exists []; now rewrite app_nil_r).
  destruct (try! events <- Py.getitem data "events" in
            try! n <- Py.len events in Py.iter events); cbn [fst];
    [apply process_events_extends | exists []; now rewrite app_nil_r].
Qed.

Lemma fetch_chunk_extends (env : Env) (current_date chunk_end : Z)
      (all_games : list GameEntry) (s : NetState) :
  exists new s',
    fetch_chunk env current_date chunk_end all_games s = (Ok (all_games ++ new), s').
Proof.
  unfold fetch_chunk.
  destruct (retry_api_call _ MAX_RETRIES RETRY_DELAY s) as [[[resp |] |] s'];
    try (exists [], s'; now rewrite app_nil_r).
  destruct (json resp) as [data |]; [| exists [], s'; now rewrite app_nil_r].
  destruct (process_data_extends env data all_games) as (new & Hnew).
  destruct (process_data env data all_games) as [all_games' [e |]];
    cbn [fst] in Hnew; subst all_games'; [eauto |].
  unfold bind, sleep, ret. eauto.
Qed.

Lemma chunk_loop_extends (env : Env) (fuel : nat) :
  forall current_date end_date all_games s collected s',
    chunk_loop env fuel current_date end_date all_games s
      = (Ok (Some collected), s') ->
    exists new, collected = all_games ++ new.
Proof.
  induction fuel as [| fuel IH];
    intros current_date end_date all_games s collected s'; cbn [chunk_loop].
  - destruct (current_date <=? end_date); cbn [negb]; [discriminate |].
    intros [= <- _]. exists []. now rewrite app_nil_r.
  - destruct (current_date <=? end_date); cbn [negb];
      [| intros [= <- _]; exists []; now rewrite app_nil_r].
    unfold bind at 1, lift at 1.
    destruct (ordinal_add current_date (7 - 1)) as [week_end |]; [| discriminate].
    unfold bind at 1.
    destruct (fetch_chunk_extends env current_date (Z.min week_end end_date)
                all_games s) as (new & s1 & ->).
    unfold bind at 1, lift at 1.
    destruct (ordinal_add (Z.min week_end end_date) 1) as [next |]; [| discriminate].
    intros Hrest. apply IH in Hrest as (more & ->).
    exists (new ++ more). now rewrite app_assoc.
Qed.

(** X7. A window never loses what the windows before it collected: the
    entries after a window are those before it followed by its own, and
    a window whose request fails in the end adds nothing and skips the
    pause; so the loop returns its starting entries followed by new
    ones. *)
Theorem windows_keep_entries (env : Env) (current_date chunk_end : Z)
        (all_games : list GameEntry) (s : NetState) :
  (exists new s',
     fetch_chunk env current_date chunk_end all_games s
       = (Ok (all_games ++ new), s')) /\
  (forall e s1,
     retry_api_call (call (scoreboard env current_date chunk_end))
                    MAX_RETRIES RETRY_DELAY s = (Raise e, s1) ->
     fetch_chunk env current_date chunk_end all_games s = (Ok all_games, s1)) /\
  (forall fuel end_date collected s',
     chunk_loop env fuel current_date end_date all_games s
       = (Ok (Some collected), s') ->
     exists new, collected = all_games ++ new).
Proof.
  split; [apply fetch_chunk_extends |]. split.
  - intros e s1 Hfail. unfold fetch_chunk. now rewrite Hfail.
  - intros fuel end_date collected s'. apply chunk_loop_extends.
Qed.

Lemma windows_keep_entries_witness :
  fetch_chunk (Sample.totals_down (mk_date 2025 11 15)) 100 106
              [mk_game "2025-10-22" 1 "ATL" "ATL vs. MIA" true] Sample.start
  = (Ok [mk_game "2025-10-22" 1 "ATL" "ATL vs. MIA" true],
     mk_net 3 [Called; Slept (inject_Z 5); Called; Slept (inject_Z 10); Called]).
Proof.
  apply (proj1 (proj2 (windows_keep_entries
           (Sample.totals_down (mk_date 2025 11 15)) 100 106
           [mk_game "2025-10-22" 1 "ATL" "ATL vs. MIA" true] Sample.start))
         ConnectionError).
  reflexivity.
Defined.

(** X8. Asked for a range whose end is before its start, the schedule
    fetch issues no request and returns [None]. *)
Theorem fetch_schedule_espn_empty_range (env : Env) (start_date end_date : Z)
        (s : NetState) :
  end_date < start_date ->
  fetch_schedule_espn env start_date end_date s = (Ok None, s).
Proof.
  intros Hlt. unfold fetch_schedule_espn, bind.
  destruct (enough_windows start_date end_date); cbn [chunk_loop];
    destruct (Z.leb_spec start_date end_date); try lia; reflexivity.
Qed.

Lemma fetch_schedule_espn_empty_range_witness :
  toordinal (mk_date 2025 10 1) < toordinal (mk_date 2025 10 2) /\
  fetch_schedule_espn (Sample.env (mk_date 2025 11 15))
                      (toordinal (mk_date 2025 10 2))
                      (toordinal (mk_date 2025 10 1)) Sample.start
  = (Ok None, Sample.start).
Proof.
  assert (Hlt : toordinal (mk_date 2025 10 1) < toordinal (mk_date 2025 10 2))
    by (vm_compute; reflexivity).
  split; [exact Hlt |].
  exact (fetch_schedule_espn_empty_range _ _ _ _ Hlt).
Defined.

Lemma fetch_chunk_provider (env : Env)
      (p1 p2 : Z -> Z -> nat -> outcome response)
      (current_date chunk_end : Z) (all_games : list GameEntry) (s : NetState) :
  (forall t, p1 current_date chunk_end t = p2 current_date chunk_end t) ->
  fetch_chunk (with_scoreboard env p1) current_date chunk_end all_games s
  = fetch_chunk (with_scoreboard env p2) current_date chunk_end all_games s.
Proof.
  intros Hp. unfold fetch_chunk, retry_api_call. cbn [scoreboard with_scoreboard].
  rewrite (retry_loop_ext _ _ MAX_RETRIES RETRY_DELAY Hp). reflexivity.
Qed.

Lemma chunk_loop_provider (env : Env)
      (p1 p2 : Z -> Z -> nat -> outcome response) (start_date end_date : Z) :
  (forall a b t, is_window start_date end_date a b -> p1 a b t = p2 a b t) ->
  forall fuel current_date all_games s,
    (current_date <= end_date ->
     exists k, 0 <= k /\ current_date = start_date + 7 * k) ->
    chunk_loop (with_scoreboard env p1) fuel current_date end_date all_games s
    = chunk_loop (with_scoreboard env p2) fuel current_date end_date all_games s.
Proof.
  intros Hp. induction fuel as [| fuel IH]; intros current_date all_games s Hk;
    [reflexivity |].
  cbn [chunk_loop].
  destruct (Z.leb_spec current_date end_date) as [Hle |]; [| reflexivity].
  cbn [negb]. destruct (Hk Hle) as (k & Hk0 & Hcur).
  unfold bind at 1 4, lift at 1 3.
  destruct (ordinal_add current_date (7 - 1)) as [week_end |] eqn:Hweek;
    [| reflexivity].
  assert (Hw : week_end = current_date + 6).
  { unfold ordinal_add in Hweek.
    destruct ((1 <=? current_date + (7 - 1)) &&
              (current_date + (7 - 1) <=? MAX_ORDINAL)); [| discriminate].
    injection Hweek as <-. lia. }
  unfold bind at 1 3.
  rewrite (fetch_chunk_provider env p1 p2 current_date (Z.min week_end end_date))
    by (intros t; apply Hp; exists k; subst week_end; auto).
  destruct (fetch_chunk (with_scoreboard env p2) current_date
              (Z.min week_end end_date) all_games s) as [[all_games' |] s1];
    [| reflexivity].
  unfold bind at 1 2, lift at 1 2.
  destruct (ordinal_add (Z.min week_end end_date) 1) as [next |] eqn:Hnext;
    [| reflexivity].
  apply IH. intros Hnext_le.
  unfold ordinal_add in Hnext.
  destruct ((1 <=? Z.min week_end end_date + 1) &&
            (Z.min week_end end_date + 1 <=? MAX_ORDINAL)); [| discriminate].
  injection Hnext as <-. exists (k + 1). lia.
Qed.

(** X9. The schedule fetch asks the provider for the consecutive
    seven-day windows of the range and for nothing else: window [k]
    starts [7 * k] days after the start date and ends six days later or
    at the end date.  Two providers that answer alike on these windows
    give the same result and the same trace. *)
Theorem fetch_schedule_espn_windows (env : Env)
        (p1 p2 : Z -> Z -> nat -> outcome response)
        (start_date end_date : Z) (s : NetState) :
  (forall a b t, is_window start_date end_date a b -> p1 a b t = p2 a b t) ->
  fetch_schedule_espn (with_scoreboard env p1) start_date end_date s
  = fetch_schedule_espn (with_scoreboard env p2) start_date end_date s.
Proof.
  intros Hp. unfold fetch_schedule_espn, bind.
  rewrite (chunk_loop_provider env p1 p2 start_date end_date Hp)
    by (intros _; exists 0; lia).
  reflexivity.
Qed.

(* ===================================================================== *)
(** * Further properties: the player statistics and the ratings *)
(* ===================================================================== *)

Lemma rows_of_player_none (df_tot : list stat_row) (id : Z) :
  rows_of_player df_tot id = [] <->
  existsb (fun t => PLAYER_ID t =? id) df_tot = false.
Proof.
  unfold rows_of_player. induction df_tot as [| t df_tot IH]; simpl; [tauto |].
  destruct (PLAYER_ID t =? id); simpl; [| exact IH].
  split; discriminate.
Qed.

Lemma players_data_ids (df_avg df_tot : list stat_row) :
  map player_id (players_data df_avg df_tot)
  = List.filter (fun id => existsb (fun t => PLAYER_ID t =? id) df_tot)
                (map PLAYER_ID df_avg).
Proof.
  induction df_avg as [| a df_avg IH]; [reflexivity |].
  cbn [players_data map List.filter].
  destruct (rows_of_player df_tot (PLAYER_ID a)) as [| t rest] eqn:Hrows.
  - apply rows_of_player_none in Hrows. now rewrite Hrows.
  - destruct (existsb (fun t => PLAYER_ID t =? PLAYER_ID a) df_tot) eqn:Hex.
    + cbn [map]. now rewrite IH.
    + apply rows_of_player_none in Hex. congruence.
Qed.

(** The records of a fetch whose two queries answered. *)
Lemma fetch_player_stats_players (env : Env) (season : string)
      (date_from : option Z) (label : string) (s s1 s2 : NetState)
      (df_avg df_tot : list stat_row) :
  retry_api_call (api_call_avg env season date_from) MAX_RETRIES RETRY_DELAY s
    = (Ok (Some df_avg), s1) ->
  retry_api_call (api_call_tot env season date_from) MAX_RETRIES RETRY_DELAY s1
    = (Ok (Some df_tot), s2) ->
  players_of (fst (fetch_player_stats env season date_from label s))
  = players_data (active df_avg) (active df_tot).
Proof.
  intros Havg Htot. rewrite fetch_player_stats_run, Havg, Htot. cbn [fst].
  destruct df_avg; reflexivity.
Qed.

(** X10. The records of a fetch come in the order of the average-mode
    rows, one for each of these rows with [GP > 0] whose player has a
    total-mode row with [GP > 0], and none for the others; a player twice
    in the average-mode rows is twice in the output. *)
Theorem player_records_in_order (env : Env) (season : string)
        (date_from : option Z) (label : string) (s s1 s2 : NetState)
        (df_avg df_tot : list stat_row) :
  retry_api_call (api_call_avg env season date_from) MAX_RETRIES RETRY_DELAY s
    = (Ok (Some df_avg), s1) ->
  retry_api_call (api_call_tot env season date_from) MAX_RETRIES RETRY_DELAY s1
    = (Ok (Some df_tot), s2) ->
  map player_id (players_of (fst (fetch_player_stats env season date_from label s)))
  = List.filter
      (fun id => existsb (fun t => PLAYER_ID t =? id) (active df_tot))
      (map PLAYER_ID (active df_avg)) /\
  (length (players_of (fst (fetch_player_stats env season date_from label s)))
   <= length df_avg)%nat.
Proof.
  intros Havg Htot.
  rewrite (fetch_player_stats_players _ _ _ _ _ _ _ _ _ Havg Htot).
  split; [apply players_data_ids |].
  rewrite <- (length_map player_id), players_data_ids.
  etransitivity; [apply List.filter_length_le |].
  rewrite length_map. apply List.filter_length_le.
Qed.

Lemma player_records_in_order_witness :
  map player_id
      (players_of (fst (fetch_player_stats (Sample.env (mk_date 2025 11 15))
                          "2025-26" None "Season" (mk_net 3 []))))
  = List.filter
      (fun id => existsb (fun t => PLAYER_ID t =? id) (active Sample.tot_rows))
      (map PLAYER_ID (active Sample.avg_rows)).
Proof.
  exact (proj1 (player_records_in_order (Sample.env (mk_date 2025 11 15))
                  "2025-26" None "Season" (mk_net 3 []) (mk_net 4 [Called])
                  (mk_net 5 [Called; Called]) Sample.avg_rows Sample.tot_rows
                  eq_refl eq_refl)).
Defined.

Lemma mapped_team_not_key (c : string) :
  team_abbr_map !! mapped_team c = None.
Proof.
  unfold mapped_team.
  destruct (team_abbr_map !! c) as [v |] eqn:Hc; simpl; [| exact Hc].
  apply mapped_team_values in Hc. simpl in Hc.
  repeat (destruct Hc as [<- | Hc]; [vm_compute; reflexivity |]).
  contradiction.
Qed.

(** X11. Whatever the provider answers, every record of a fetch has
    played at least one game and carries a team code that is not one of
    the six stats-provider codes of the table: the codes of the output
    are never left untranslated. *)
Theorem player_records_canonical (env : Env) (season : string)
        (date_from : option Z) (label : string) (s : NetState)
        (r : PlayerStatRecord) :
  In r (players_of (fst (fetch_player_stats env season date_from label s))) ->
  0 < gp r /\ team_abbr_map !! team r = None /\ mapped_team (team r) = team r.
Proof.
  rewrite fetch_player_stats_run.
  destruct (retry_api_call (api_call_avg env season date_from) _ _ s)
    as [[[df_avg |] | e] s1]; cbn [fst players_of]; try contradiction.
  destruct (retry_api_call (api_call_tot env season date_from) _ _ s1)
    as [[[df_tot |] | e] s2]; cbn [fst players_of]; try contradiction.
  intros Hr.
  assert (Hin : In r (players_data (active df_avg) (active df_tot)))
    by (destruct df_avg; [contradiction | exact Hr]).
  apply players_data_in in Hin as (a & t & rest & Ha & _ & ->).
  apply active_in in Ha as [_ Hgp]. cbn [gp team merge].
  split; [exact Hgp |]. split; [apply mapped_team_not_key |].
  unfold mapped_team at 1. now rewrite mapped_team_not_key.
Qed.

Lemma player_records_canonical_witness :
  In (merge (Sample.a_row 1 "Ann" "GSW" 10 (20 # 1))
            (Sample.a_row 1 "Ann" "GSW" 10 (200 # 1)))
     (players_of (fst (fetch_player_stats (Sample.env (mk_date 2025 11 15))
                         "2025-26" None "Season" (mk_net 3 [])))) /\
  team (merge (Sample.a_row 1 "Ann" "GSW" 10 (20 # 1))
              (Sample.a_row 1 "Ann" "GSW" 10 (200 # 1))) = "GS" /\
  team_abbr_map !! "GS" = None.
Proof.
  assert (Hin : In (merge (Sample.a_row 1 "Ann" "GSW" 10 (20 # 1))
                          (Sample.a_row 1 "Ann" "GSW" 10 (200 # 1)))
     (players_of (fst (fetch_player_stats (Sample.env (mk_date 2025 11 15))
                         "2025-26" None "Season" (mk_net 3 [])))))
    by (left; reflexivity).
  split; [exact Hin |]. split; [reflexivity |].
  exact (proj1 (proj2 (player_records_canonical _ _ _ _ _ _ Hin))).
Defined.

(** X12. A fetch of player statistics issues at least one request and
    at most six, three for each of its two queries; when the average-mode
    query fails in the end the total-mode query is not issued at all. *)
Theorem fetch_player_stats_requests (env : Env) (season : string)
        (date_from : option Z) (label : string) (s : NetState) :
  (tick s + 1 <= tick (snd (fetch_player_stats env season date_from label s))
   <= tick s + 6)%nat /\
  (forall e s1,
     retry_api_call (api_call_avg env season date_from) MAX_RETRIES RETRY_DELAY s
       = (Raise e, s1) ->
     fetch_player_stats env season date_from label s = (Ok None, s1) /\
     (tick s1 <= tick s + 3)%nat).
Proof.
  assert (Hpos : (0 < MAX_RETRIES)%nat) by (unfold MAX_RETRIES; lia).
  pose proof (retry_api_call_ticks (player_table env PerGame season date_from)
                MAX_RETRIES RETRY_DELAY s Hpos) as Havg.
  fold (api_call_avg env season date_from) in Havg.
  rewrite fetch_player_stats_run. split.
  - destruct (retry_api_call (api_call_avg env season date_from) _ _ s)
      as [[[df_avg |] | e] s1]; cbn [snd] in *;
      try (unfold MAX_RETRIES in Havg; lia).
    pose proof (retry_api_call_ticks (player_table env Totals season date_from)
                  MAX_RETRIES RETRY_DELAY s1 Hpos) as Htot.
    fold (api_call_tot env season date_from) in Htot.
    destruct (retry_api_call (api_call_tot env season date_from) _ _ s1)
      as [[[df_tot |] | e] s2]; cbn [snd] in *;
      unfold MAX_RETRIES in *; lia.
  - intros e s1 Hfail. rewrite Hfail in *. cbn [snd] in Havg.
    split; [reflexivity | unfold MAX_RETRIES in Havg; lia].
Qed.

Lemma fetch_player_stats_requests_witness :
  fetch_player_stats (Sample.env (mk_date 2025 11 15)) "2025-26" None "Season"
                     Sample.start
  = (Ok None,
     mk_net 3 [Called; Slept (inject_Z 5); Called; Slept (inject_Z 10); Called]).
Proof.
  apply (proj2 (fetch_player_stats_requests (Sample.env (mk_date 2025 11 15))
                  "2025-26" None "Season" Sample.start) ReadTimeout).
  reflexivity.
Defined.

Lemma ratings_data_rank (env : Env) (with_rating : bool) (df : list team_row) :
  forall (next_rank : Z) (i : nat) (t : TeamDefenseRating),
    ratings_data env with_rating next_rank df !! i = Some t ->
    rank t = next_rank + Z.of_nat i.
Proof.
  induction df as [| row df IH]; intros next_rank i t; [discriminate |].
  destruct i as [| i]; cbn [ratings_data].
  - intros [= <-]. cbn [rank]. lia.
  - intros Ht. apply IH in Ht. lia.
Qed.

Lemma ratings_data_length (env : Env) (with_rating : bool) (df : list team_row) :
  forall next_rank, length (ratings_data env with_rating next_rank df) = length df.
Proof.
  induction df as [| row df IH]; intros next_rank; [reflexivity |].
  cbn [ratings_data length]. now rewrite IH.
Qed.

Lemma ratings_data_fields (env : Env) (with_rating : bool) (df : list team_row) :
  forall (next_rank : Z) (i : nat) (t : TeamDefenseRating),
    ratings_data env with_rating next_rank df !! i = Some t ->
    exists row,
      df !! i = Some row /\
      rating_team_abbr t = default "UNK" (id_to_abbr env !! TEAM_ID row) /\
      def_rating t = if with_rating then DEF_RATING row else inject_Z 0.
Proof.
  induction df as [| row df IH]; intros next_rank i t; [discriminate |].
  destruct i as [| i]; cbn [ratings_data].
  - intros [= <-]. exists row. split; [reflexivity | split; reflexivity].
  - intros Ht. apply IH in Ht as (row' & Hrow & Habbr & Hrating).
    exists row'. auto.
Qed.

Lemma registry_lookup (teams : list (Z * string)) (id : Z) (abbr : string) :
  forall m : gmap Z string,
    foldl (fun m t => <[fst t := snd t]> m) m teams !! id = Some abbr ->
    m !! id = Some abbr \/ In (id, abbr) teams.
Proof.
  induction teams as [| [id' abbr'] teams IH]; intros m; cbn [foldl]; [auto |].
  intros Hm. apply IH in Hm as [Hm | Hin]; [| right; now right].
  cbn [fst snd] in Hm. apply lookup_insert_Some in Hm as [[-> ->] | [_ Hm]].
  - right. now left.
  - now left.
Qed.

(** The ratings fetch, case by case on its query. *)
Lemma fetch_defensive_ratings_run (env : Env) (season : string) (s : NetState) :
  fetch_defensive_ratings env season s =
  match retry_api_call (call (team_table env season)) MAX_RETRIES RETRY_DELAY s with
  | (Ok (Some frame), s1) =>
      (Ok (Some (Ratings.mk season (now_iso env (tick s1))
                   (ratings_data env (has_def_rating frame) 1
                      (if has_def_rating frame
                       then sort_values env DEF_RATING true (rows frame)
                       else sort_values env W_PCT false (rows frame))))), s1)
  | (_, s1) => (Ok None, s1)
  end.
Proof.
  unfold fetch_defensive_ratings, catch. unfold bind at 1.
  destruct (retry_api_call (call (team_table env season)) MAX_RETRIES RETRY_DELAY s)
    as [[[frame |] | e] s1]; reflexivity.
Qed.

Lemma ratings_data_lookup (env : Env) (with_rating : bool) (df : list team_row) :
  forall (next_rank : Z) (i : nat) (row : team_row),
    df !! i = Some row ->
    ratings_data env with_rating next_rank df !! i
    = Some (mk_rating (default "UNK" (id_to_abbr env !! TEAM_ID row))
                      (next_rank + Z.of_nat i)
                      (if with_rating then DEF_RATING row else inject_Z 0)).
Proof.
  induction df as [| row0 df IH]; intros next_rank i row; [discriminate |].
  destruct i as [| i]; cbn [ratings_data].
  - intros [= <-]. cbn [lookup list_lookup]. f_equal. f_equal. lia.
  - intros Hrow. cbn [lookup list_lookup]. rewrite (IH _ _ _ Hrow).
    f_equal. f_equal. lia.
Qed.

Lemma registry_absent (teams : list (Z * string)) (id : Z) :
  forall m : gmap Z string,
    ~ In id (map fst teams) ->
    foldl (fun m t => <[fst t := snd t]> m) m teams !! id = m !! id.
Proof.
  induction teams as [| [id' abbr'] teams IH]; intros m Hnot; cbn [foldl];
    [reflexivity |].
  cbn [map fst snd In] in *. rewrite IH by tauto.
  apply lookup_insert_ne. tauto.
Qed.

Lemma registry_last (before after : list (Z * string)) (id : Z) (abbr : string) :
  forall m : gmap Z string,
    ~ In id (map fst after) ->
    foldl (fun m t => <[fst t := snd t]> m) m (before ++ (id, abbr) :: after) !! id
    = Some abbr.
Proof.
  induction before as [| entry before IH]; intros m Hnot; cbn [app foldl].
  - rewrite registry_absent by exact Hnot. cbn [fst snd]. apply lookup_insert_eq.
  - now apply IH.
Qed.

(** X13. When its query fails in the end, the ratings fetch returns
    [None].  When the query answers with a table that has the team ids
    and the column sorted on, the fetch returns an envelope of the season
    asked for with one rating for each row the sort hands back, at the
    place of that row: its rank is its place counted from 1, its rating
    that of the row, 0 when the table has no rating column, and its team
    code the abbreviation of the last entry of the registry with the team
    id of the row, ["UNK"] when the registry has no such entry. *)
Theorem fetch_defensive_ratings_ranks (env : Env) (season : string)
        (s : NetState) :
  (forall e s1,
     retry_api_call (call (team_table env season)) MAX_RETRIES RETRY_DELAY s
       = (Raise e, s1) ->
     fetch_defensive_ratings env season s = (Ok None, s1)) /\
  (forall frame s1,
     retry_api_call (call (team_table env season)) MAX_RETRIES RETRY_DELAY s
       = (Ok (Some frame), s1) ->
     exists e sorted,
       fetch_defensive_ratings env season s = (Ok (Some e), s1) /\
       Ratings.season e = season /\
       Ratings.updated_at e = now_iso env (tick s1) /\
       sorted = (if has_def_rating frame
                 then sort_values env DEF_RATING true (rows frame)
                 else sort_values env W_PCT false (rows frame)) /\
       length (Ratings.teams e) = length sorted /\
       forall i row,
         sorted !! i = Some row ->
         exists t,
           Ratings.teams e !! i = Some t /\
           rank t = Z.of_nat i + 1 /\
           def_rating t
             = (if has_def_rating frame then DEF_RATING row else inject_Z 0) /\
           (forall before abbr after,
              get_teams env = before ++ (TEAM_ID row, abbr) :: after ->
              ~ In (TEAM_ID row) (map fst after) ->
              rating_team_abbr t = abbr) /\
           (~ In (TEAM_ID row) (map fst (get_teams env)) ->
            rating_team_abbr t = "UNK")).
Proof.
  split.
  - intros e s1 Hq. rewrite fetch_defensive_ratings_run, Hq. reflexivity.
  - intros frame s1 Hq. rewrite fetch_defensive_ratings_run, Hq.
    do 2 eexists. split; [reflexivity |]. cbn [Ratings.season Ratings.updated_at
      Ratings.teams].
    split; [reflexivity |]. split; [reflexivity |]. split; [reflexivity |].
    split; [apply ratings_data_length |].
    intros i row Hrow. eexists. split; [exact (ratings_data_lookup _ _ _ _ _ _ Hrow) |].
    cbn [rank def_rating rating_team_abbr].
    split; [lia |]. split; [reflexivity |]. split.
    + intros before abbr after Hteams Hnot. unfold id_to_abbr.
      rewrite Hteams, registry_last by exact Hnot. reflexivity.
    + intros Hnot. unfold id_to_abbr.
      rewrite registry_absent by exact Hnot. rewrite lookup_empty. reflexivity.
Qed.

Lemma fetch_defensive_ratings_ranks_witness :
  retry_api_call (call (team_table (Sample.with_teams (mk_date 2025 11 15))
                                   "2025-26"))
                 MAX_RETRIES RETRY_DELAY Sample.start
  = (Ok (Some (mk_frame true [mk_team_row 1610612738 (105 # 1) (7 # 10);
                              mk_team_row 7 (110 # 1) (1 # 2)])),
     mk_net 1 [Called]) /\
  exists e,
    fetch_defensive_ratings (Sample.with_teams (mk_date 2025 11 15)) "2025-26"
                            Sample.start = (Ok (Some e), mk_net 1 [Called]) /\
    Ratings.season e = "2025-26" /\
    length (Ratings.teams e) = 2%nat.
Proof.
  assert (Hq : retry_api_call
                 (call (team_table (Sample.with_teams (mk_date 2025 11 15))
                                   "2025-26"))
                 MAX_RETRIES RETRY_DELAY Sample.start
    = (Ok (Some (mk_frame true [mk_team_row 1610612738 (105 # 1) (7 # 10);
                                mk_team_row 7 (110 # 1) (1 # 2)])),
       mk_net 1 [Called])) by reflexivity.
  split; [exact Hq |].
  destruct (proj2 (fetch_defensive_ratings_ranks _ _ _) _ _ Hq)
    as (e & sorted & Hrun & Hseason & _ & Hsorted & Hlen & _).
  exists e. split; [exact Hrun |]. split; [exact Hseason |].
  rewrite Hlen, Hsorted. reflexivity.
Defined.

Lemma fetch_schedule_espn_windows_witness :
  fetch_schedule_espn
    (with_scoreboard (Sample.env (mk_date 2025 11 15)) Sample.one_game)
    739525 739534 Sample.start
  = fetch_schedule_espn
      (with_scoreboard (Sample.env (mk_date 2025 11 15)) (Sample.weeks_only 739525))
      739525 739534 Sample.start.
Proof.
  apply fetch_schedule_espn_windows.
  intros a b t (k & Hk & -> & _). unfold Sample.weeks_only.
  replace (739525 + 7 * k - 739525) with (k * 7) by lia.
  rewrite Z.mod_mul by lia. reflexivity.
Defined.

(* ===================================================================== *)
(** * Further properties: the orchestrator *)
(* ===================================================================== *)

Lemma days_before_year_bounds (y : Z) :
  1 <= y <= 9999 ->
  0 <= days_before_year y <= 3651694 /\ (2 <= y -> 365 <= days_before_year y).
Proof.
  intros Hy. unfold days_before_year.
  Z.to_euclidean_division_equations; lia.
Qed.

Lemma days_before_month_bounds (y m : Z) :
  1 <= m <= 12 -> 0 <= days_before_month y m <= 335.
Proof.
  intros Hm.
  assert (Hcases : m = 1 \/ m = 2 \/ m = 3 \/ m = 4 \/ m = 5 \/ m = 6 \/
                   m = 7 \/ m = 8 \/ m = 9 \/ m = 10 \/ m = 11 \/ m = 12) by lia.
  repeat (destruct Hcases as [-> | Hcases]);
    try subst m; unfold days_before_month; simpl; unfold days_in_month; simpl;
    destruct (is_leap y); lia.
Qed.

(** The ordinal of a date of the year 2 or later leaves room for the
    two trailing windows of [main]. *)
Lemma toordinal_today (today : date) :
  valid_date today = true -> 2 <= year today ->
  15 <= toordinal today <= MAX_ORDINAL + 1.
Proof.
  unfold valid_date, MINYEAR, MAXYEAR, MAX_ORDINAL, toordinal.
  rewrite !andb_true_iff, !Z.leb_le. intros [[[[[Hy1 Hy2] Hm1] Hm2] Hd1] Hd2] Hy.
  destruct (days_before_year_bounds (year today)) as [Hby Hby2]; [lia |].
  pose proof (days_before_month_bounds (year today) (month today)) as Hbm.
  assert (Hdim : days_in_month (year today) (month today) <= 31).
  { unfold days_in_month.
    destruct (month today =? 2); [destruct (is_leap (year today)); lia |].
    destruct ((month today =? 4) || (month today =? 6) || (month today =? 9)
              || (month today =? 11)); lia. }
  lia.
Qed.

Lemma season_bounds_ordinals (today season_start season_end : date) :
  season_bounds today = Ok (season_start, season_end) ->
  1 <= toordinal season_start /\ toordinal season_end + 7 <= MAX_ORDINAL.
Proof.
  assert (Hcase : forall y y' s e,
    (try! a <- new_date y 10 1 in try! b <- new_date y' 4 15 in Ok (a, b))
    = Ok (s, e) ->
    1 <= toordinal s /\ toordinal e + 7 <= MAX_ORDINAL).
  { intros y y' s e.
    destruct (new_date y 10 1) as [a |] eqn:Ha; [| discriminate].
    destruct (new_date y' 4 15) as [b |] eqn:Hb; [| discriminate].
    apply new_date_inv in Ha as [-> Hva]. apply new_date_inv in Hb as [-> Hvb].
    intros [= <- <-].
    unfold valid_date, MINYEAR, MAXYEAR in Hva, Hvb. cbn [year month day] in *.
    rewrite !andb_true_iff, !Z.leb_le in Hva, Hvb.
    destruct (days_before_year_bounds y) as [Hy _]; [lia |].
    destruct (days_before_year_bounds y') as [Hy' _]; [lia |].
    unfold toordinal, MAX_ORDINAL. cbn [year month day].
    rewrite days_before_october, days_before_april.
    destruct (is_leap y), (is_leap y'); lia. }
  unfold season_bounds.
  destruct (10 <=? month today); [apply Hcase |].
  destruct (month today <=? 4); apply Hcase.
Qed.

Lemma chunk_loop_in_calendar (env : Env) (end_date : Z) (fuel : nat) :
  end_date + 7 <= MAX_ORDINAL ->
  forall current_date all_games s,
    1 <= current_date ->
    (Z.to_nat (end_date - current_date + 1) <= fuel)%nat ->
    exists collected s',
      chunk_loop env fuel current_date end_date all_games s
      = (Ok (Some collected), s').
Proof.
  intros Hend. induction fuel as [| fuel IH];
    intros current_date all_games s Hcur Hfuel; cbn [chunk_loop].
  - destruct (Z.leb_spec current_date end_date); [lia |]. cbn [negb].
    unfold ret. eauto.
  - destruct (Z.leb_spec current_date end_date) as [Hle |]; cbn [negb];
      [| unfold ret; eauto].
    unfold bind at 1, lift at 1, ordinal_add at 1.
    destruct (Z.leb_spec 1 (current_date + (7 - 1))); [| lia].
    destruct (Z.leb_spec (current_date + (7 - 1)) MAX_ORDINAL); [| lia].
    cbn [andb]. unfold bind at 1.
    destruct (fetch_chunk_extends env current_date
                (Z.min (current_date + (7 - 1)) end_date) all_games s)
      as (new & s1 & ->).
    unfold bind at 1, lift at 1, ordinal_add at 1.
    destruct (Z.leb_spec 1 (Z.min (current_date + (7 - 1)) end_date + 1)); [| lia].
    destruct (Z.leb_spec (Z.min (current_date + (7 - 1)) end_date + 1) MAX_ORDINAL);
      [| lia].
    cbn [andb]. apply IH; lia.
Qed.

Lemma fetch_schedule_espn_in_calendar (env : Env) (start_date end_date : Z)
      (s : NetState) :
  1 <= start_date -> end_date + 7 <= MAX_ORDINAL ->
  exists result s', fetch_schedule_espn env start_date end_date s = (Ok result, s').
Proof.
  intros Hstart Hend. unfold fetch_schedule_espn, bind.
  destruct (chunk_loop_in_calendar env end_date
              (enough_windows start_date end_date) Hend start_date [] s Hstart
              (Nat.le_refl _)) as (collected & s' & ->).
  eauto.
Qed.

Lemma fetch_player_stats_total (env : Env) (season : string)
      (date_from : option Z) (label : string) (s : NetState) :
  exists result s',
    fetch_player_stats env season date_from label s = (Ok result, s').
Proof.
  rewrite fetch_player_stats_run.
  destruct (retry_api_call (api_call_avg env season date_from) _ _ s)
    as [[[df_avg |] | e] s1]; eauto.
  destruct (retry_api_call (api_call_tot env season date_from) _ _ s1)
    as [[[df_tot |] | e] s2]; eauto.
  destruct df_avg; eauto.
Qed.

Lemma fetch_defensive_ratings_total (env : Env) (season : string) (s : NetState) :
  exists result s', fetch_defensive_ratings env season s = (Ok result, s').
Proof.
  rewrite fetch_defensive_ratings_run.
  destruct (retry_api_call (call (team_table env season)) _ _ s)
    as [[[frame |] | e] s1]; eauto.
Qed.

Lemma save_json_total (env : Env) (data : option document) (filename : string)
      (w : World) :
  exists written w', save_json env data filename w = (Ok written, w').
Proof.
  unfold save_json. destruct data; [destruct (disk env filename) |]; eauto.
Qed.

Lemma bind_step {S A B : Type} (c : M S A) (f : A -> M S B) (s s1 : S) (a : A) :
  c s = (Ok a, s1) -> bind c f s = f a s1.
Proof. unfold bind. now intros ->. Qed.

Lemma in_net_step {A : Type} (c : Net A) (w : World) (a : A) (s1 : NetState) :
  c (net w) = (Ok a, s1) -> in_net c w = (Ok a, mk_world s1 (files w)).
Proof. unfold in_net. now intros ->. Qed.

Lemma server_year_fix_in_range (today : date) :
  valid_date today = true -> 2 <= year today <= 9998 ->
  valid_date (server_year_fix today) = true /\
  2 <= year (server_year_fix today) <= 9998.
Proof.
  intros Hvalid Hyear.
  destruct (Z.eq_dec (year today) 2024) as [Hy | Hy].
  - rewrite (server_year_fix_2024 _ Hy Hvalid). split; [| lia].
    unfold server_year_fix, replace_year, new_date. rewrite Hy.
    cbn [Z.eqb Pos.eqb].
    destruct (valid_date (mk_date 2025 (month today) (day today))) eqn:H25;
      [exact H25 |].
    destruct today as [y m d]. cbn [year month day] in *. subst y.
    destruct (leap_day_2024 m d Hvalid H25) as [-> ->]. reflexivity.
  - rewrite server_year_fix_other by exact Hy. auto.
Qed.

(** X14. With a clock that shows a date of the years 2 to 9998, [main]
    runs to its end whatever the providers and the disk do: no exception
    leaves it, and its exit status is 0 or 1. *)
Theorem main_exits (env : Env) (w : World) :
  valid_date (today_now env) = true ->
  2 <= year (today_now env) <= 9998 ->
  exists status w', main env w = (Ok status, w') /\ (status = 0 \/ status = 1).
Proof.
  intros Hvalid Hyear.
  destruct (server_year_fix_in_range _ Hvalid Hyear) as [Hv Hy]. unfold main.
  set (today := server_year_fix (today_now env)) in *.
  assert (Hbounds : exists season_start season_end,
            season_bounds today = Ok (season_start, season_end)).
  { unfold season_bounds.
    destruct (10 <=? month today); [| destruct (month today <=? 4)];
      rewrite new_date_ok by (apply oct_1_valid; lia); cbn [obind];
      rewrite new_date_ok by (apply apr_15_valid; lia); eauto. }
  destruct Hbounds as (season_start & season_end & Hbounds).
  destruct (season_bounds_ordinals _ _ _ Hbounds) as [Hstart Hend].
  rewrite (bind_step _ _ w w (season_start, season_end))
    by (unfold lift; now rewrite Hbounds).
  cbn [fst snd].
  destruct (fetch_schedule_espn_in_calendar env (toordinal season_start)
              (toordinal season_end) (net w) Hstart Hend) as (sched & s1 & Hsched).
  rewrite (bind_step _ _ _ _ _ (in_net_step _ _ _ _ Hsched)).
  destruct (save_json_total env (ScheduleDoc <$> sched)
              (schedule_filename (season_label today))
              (mk_world s1 (files w))) as (r1 & w1 & Hsave1).
  rewrite (bind_step _ _ _ _ _ Hsave1).
  destruct (fetch_player_stats_total env (season_label today) None "Season" (net w1))
    as (ps & s2 & Hps).
  rewrite (bind_step _ _ _ _ _ (in_net_step _ _ _ _ Hps)).
  destruct (save_json_total env (PlayerStatsDoc <$> ps) "player_stats_season.json"
              (mk_world s2 (files w1))) as (r2 & w2 & Hsave2).
  rewrite (bind_step _ _ _ _ _ Hsave2).
  destruct (toordinal_today today Hv) as [Hlo Hhi]; [lia |].
  assert (Hd7 : ordinal_add (toordinal today) (-7) = Ok (toordinal today + -7)).
  { unfold ordinal_add.
    destruct (Z.leb_spec 1 (toordinal today + -7)); [| lia].
    destruct (Z.leb_spec (toordinal today + -7) MAX_ORDINAL); [| lia].
    reflexivity. }
  rewrite (bind_step _ _ w2 w2 (toordinal today + -7))
    by (unfold lift; now rewrite Hd7).
  destruct (fetch_player_stats_total env (season_label today)
              (Some (toordinal today + -7)) "Last 7 Days" (net w2))
    as (ps7 & s3 & Hps7).
  rewrite (bind_step _ _ _ _ _ (in_net_step _ _ _ _ Hps7)).
  destruct (save_json_total env (PlayerStatsDoc <$> ps7) "player_stats_l7.json"
              (mk_world s3 (files w2))) as (r3 & w3 & Hsave3).
  rewrite (bind_step _ _ _ _ _ Hsave3).
  assert (Hd14 : ordinal_add (toordinal today) (-14) = Ok (toordinal today + -14)).
  { unfold ordinal_add.
    destruct (Z.leb_spec 1 (toordinal today + -14)); [| lia].
    destruct (Z.leb_spec (toordinal today + -14) MAX_ORDINAL); [| lia].
    reflexivity. }
  rewrite (bind_step _ _ w3 w3 (toordinal today + -14))
    by (unfold lift; now rewrite Hd14).
  destruct (fetch_player_stats_total env (season_label today)
              (Some (toordinal today + -14)) "Last 14 Days" (net w3))
    as (ps14 & s4 & Hps14).
  rewrite (bind_step _ _ _ _ _ (in_net_step _ _ _ _ Hps14)).
  destruct (save_json_total env (PlayerStatsDoc <$> ps14) "player_stats_l14.json"
              (mk_world s4 (files w3))) as (r4 & w4 & Hsave4).
  rewrite (bind_step _ _ _ _ _ Hsave4).
  destruct (fetch_defensive_ratings_total env (season_label today) (net w4))
    as (dr & s5 & Hdr).
  rewrite (bind_step _ _ _ _ _ (in_net_step _ _ _ _ Hdr)).
  destruct (save_json_total env (RatingsDoc <$> dr) "defensive_ratings.json"
              (mk_world s5 (files w4))) as (r5 & w5 & Hsave5).
  rewrite (bind_step _ _ _ _ _ Hsave5).
  unfold ret. do 2 eexists. split; [reflexivity |].
  rewrite exit_status_integers. destruct (5 <=? _); auto.
Qed.

Lemma main_exits_witness :
  valid_date (today_now (Sample.env (mk_date 2025 11 15))) = true /\
  exists status w',
    main (Sample.env (mk_date 2025 11 15)) (mk_world Sample.start ∅)
      = (Ok status, w') /\
    (status = 0 \/ status = 1).
Proof.
  split; [reflexivity |].
  apply main_exits; [reflexivity | simpl; lia].
Defined.

(** A write that reports success left a whole document under its name. *)
Lemma save_json_flag (env : Env) (data : option document) (filename : string)
      (w w' : World) (written : bool) :
  save_json env data filename w = (Ok written, w') ->
  Z.b2z written <= Z.b2z (is_complete (files w' !! filename)).
Proof.
  destruct written; [| destruct (is_complete _); simpl; lia].
  intros Hsave. apply save_json_true in Hsave as (d & _ & _ & -> & _).
  now rewrite lookup_insert_eq.
Qed.

(** X15. When [main] exits with status 0, at least three of the five
    artifact files hold a whole document at the end of the run: a write
    counted as a success is not undone by the later steps, which write
    under other names. *)
Theorem main_success_files (env : Env) (w w' : World) :
  main env w = (Ok 0, w') ->
  (3 <= length
          (List.filter (fun filename => is_complete (files w' !! filename))
             (artifact_names (season_label (server_year_fix (today_now env))))))%nat.
Proof.
  intros Hmain. unfold main in Hmain.
  set (current_season := season_label (server_year_fix (today_now env))) in *.
  apply bind_ok in Hmain as (bounds & w0 & Hbounds & Hmain).
  apply lift_ok in Hbounds as [_ ->].
  apply bind_ok in Hmain as (schedule_data & w1 & Hf1 & Hmain).
  apply bind_ok in Hmain as (r1 & w2 & Hs1 & Hmain).
  apply bind_ok in Hmain as (ps & w3 & Hf2 & Hmain).
  apply bind_ok in Hmain as (r2 & w4 & Hs2 & Hmain).
  apply bind_ok in Hmain as (d7 & w5 & Hd7 & Hmain).
  apply lift_ok in Hd7 as [_ ->].
  apply bind_ok in Hmain as (ps7 & w5 & Hf3 & Hmain).
  apply bind_ok in Hmain as (r3 & w6 & Hs3 & Hmain).
  apply bind_ok in Hmain as (d14 & w7 & Hd14 & Hmain).
  apply lift_ok in Hd14 as [_ ->].
  apply bind_ok in Hmain as (ps14 & w7 & Hf4 & Hmain).
  apply bind_ok in Hmain as (r4 & w8 & Hs4 & Hmain).
  apply bind_ok in Hmain as (dr & w9 & Hf5 & Hmain).
  apply bind_ok in Hmain as (r5 & w10 & Hs5 & Hmain).
  injection Hmain as Hstatus <-.
  pose proof (save_json_flag _ _ _ _ _ _ Hs1) as H1.
  pose proof (save_json_flag _ _ _ _ _ _ Hs2) as H2.
  pose proof (save_json_flag _ _ _ _ _ _ Hs3) as H3.
  pose proof (save_json_flag _ _ _ _ _ _ Hs4) as H4.
  pose proof (save_json_flag _ _ _ _ _ _ Hs5) as H5.
  assert (K1 : files w10 !! schedule_filename current_season
               = files w2 !! schedule_filename current_season).
  { rewrite (save_json_other _ _ _ (schedule_filename current_season) _ _ _ Hs5)
      by (apply schedule_filename_other; simpl; auto).
    rewrite (in_net_files _ _ _ _ Hf5).
    rewrite (save_json_other _ _ _ (schedule_filename current_season) _ _ _ Hs4)
      by (apply schedule_filename_other; simpl; auto).
    rewrite (in_net_files _ _ _ _ Hf4).
    rewrite (save_json_other _ _ _ (schedule_filename current_season) _ _ _ Hs3)
      by (apply schedule_filename_other; simpl; auto).
    rewrite (in_net_files _ _ _ _ Hf3).
    rewrite (save_json_other _ _ _ (schedule_filename current_season) _ _ _ Hs2)
      by (apply schedule_filename_other; simpl; auto).
    now rewrite (in_net_files _ _ _ _ Hf2). }
  assert (K2 : files w10 !! "player_stats_season.json"
               = files w4 !! "player_stats_season.json").
  { rewrite (save_json_other _ _ _ "player_stats_season.json" _ _ _ Hs5)
      by discriminate.
    rewrite (in_net_files _ _ _ _ Hf5).
    rewrite (save_json_other _ _ _ "player_stats_season.json" _ _ _ Hs4)
      by discriminate.
    rewrite (in_net_files _ _ _ _ Hf4).
    rewrite (save_json_other _ _ _ "player_stats_season.json" _ _ _ Hs3)
      by discriminate.
    now rewrite (in_net_files _ _ _ _ Hf3). }
  assert (K3 : files w10 !! "player_stats_l7.json"
               = files w6 !! "player_stats_l7.json").
  { rewrite (save_json_other _ _ _ "player_stats_l7.json" _ _ _ Hs5)
      by discriminate.
    rewrite (in_net_files _ _ _ _ Hf5).
    rewrite (save_json_other _ _ _ "player_stats_l7.json" _ _ _ Hs4)
      by discriminate.
    now rewrite (in_net_files _ _ _ _ Hf4). }
  assert (K4 : files w10 !! "player_stats_l14.json"
               = files w8 !! "player_stats_l14.json").
  { rewrite (save_json_other _ _ _ "player_stats_l14.json" _ _ _ Hs5)
      by discriminate.
    now rewrite (in_net_files _ _ _ _ Hf5). }
  rewrite <- K1 in H1. rewrite <- K2 in H2. rewrite <- K3 in H3.
  rewrite <- K4 in H4.
  rewrite exit_status_integers in Hstatus.
  unfold values, sum in Hstatus. cbn [fold_right schedule player_stats_season
    player_stats_l7 player_stats_l14 defensive_ratings] in Hstatus.
  destruct (Z.leb_spec 5 (2 * (Z.b2z r1 + (Z.b2z r2 + (Z.b2z r3 +
              (Z.b2z r4 + (Z.b2z r5 + 0))))))) as [Hhalf |]; [| discriminate].
  unfold artifact_names. cbn [List.filter].
  destruct (is_complete (files w10 !! schedule_filename current_season)),
           (is_complete (files w10 !! "player_stats_season.json")),
           (is_complete (files w10 !! "player_stats_l7.json")),
           (is_complete (files w10 !! "player_stats_l14.json")),
           (is_complete (files w10 !! "defensive_ratings.json"));
    cbn [length]; cbn [Z.b2z] in *; try lia;
    destruct r1, r2, r3, r4, r5; cbn [Z.b2z] in *; lia.
Qed.

Lemma main_success_files_witness :
  exists w',
    main (Sample.env (mk_date 2025 11 15)) (mk_world (mk_net 3 []) ∅) = (Ok 0, w') /\
    (3 <= length
            (List.filter (fun filename => is_complete (files w' !! filename))
               (artifact_names "2025-26")))%nat.
Proof.
  eexists.
  assert (Hmain : main (Sample.env (mk_date 2025 11 15)) (mk_world (mk_net 3 []) ∅)
                  = (Ok 0, _)) by (vm_compute; reflexivity).
  split; [exact Hmain |].
  exact (main_success_files _ _ _ Hmain).
Defined.

(* ===================================================================== *)
(** * Further properties: dates of games, envelopes and writes *)
(* ===================================================================== *)

Lemma examine_emit_date (env : Env) (event : pyval) (d : string)
      (home_team away_team : pyval) (h a : string) :
  examine env event = Ok (Emit d home_team away_team h a) ->
  exists game_date,
    Py.get event "date" (VStr "") = Ok game_date /\
    game_date_only env game_date = Some d.
Proof.
  unfold examine.
  destruct (Py.get event "date" (VStr "")) as [game_date |]; [| discriminate].
  cbn [obind].
  destruct (Py.get event "competitions" (VList [])) as [competitions |];
    [| discriminate].
  cbn [obind].
  destruct (Py.truthy competitions); cbn [negb]; [| discriminate].
  destruct (Py.first competitions) as [competition |]; [| discriminate].
  cbn [obind].
  destruct (Py.get competition "competitors" (VList [])) as [competitors |];
    [| discriminate].
  cbn [obind].
  destruct (Py.len competitors) as [n |]; [| discriminate]. cbn [obind].
  destruct (n <? 2); [discriminate |].
  destruct (Py.iter competitors) as [ps |]; [| discriminate]. cbn [obind].
  destruct (find_home_away ps VNone VNone) as [[ht at_] |]; [| discriminate].
  cbn [obind fst snd].
  destruct (negb (Py.truthy ht) || negb (Py.truthy at_)); [discriminate |].
  destruct (Py.get ht "abbreviation" (VStr "")) as [home_abbr |]; [| discriminate].
  cbn [obind].
  destruct (Py.get at_ "abbreviation" (VStr "")) as [away_abbr |]; [| discriminate].
  cbn [obind].
  destruct (Py.in_str_set home_abbr nba_teams) as [[] |]; cbn [obind negb];
    try discriminate.
  destruct (Py.in_str_set away_abbr nba_teams) as [[] |]; cbn [obind negb];
    try discriminate.
  destruct home_abbr; try discriminate. destruct away_abbr; try discriminate.
  destruct (game_date_only env game_date) as [d' |] eqn:Hd; [| discriminate].
  intros [= <- _ _ _ _]. eauto.
Qed.

(** X16. The day of every entry is the calendar day of the event's
    timestamp moved back five hours: the day of the timestamp when its
    hour is 5 or later, the day before otherwise.  An event whose ['date']
    is not a string, or does not parse, gives no entry. *)
Theorem game_day_utc_minus_5 (env : Env) (event : pyval) (g : GameEntry) :
  In g (fst (process_event env event)) ->
  exists s dt d,
    Py.get event "date" (VStr "") = Ok (VStr s) /\
    fromisoformat env (replace_Z s) = Some dt /\
    game_day g = date_str d /\
    (5 <= hour dt -> d = dt_date dt) /\
    (hour dt < 5 -> prev_day (dt_date dt) = Ok d).
Proof.
  intros Hg.
  assert (Hne : fst (process_event env event) <> [])
    by (intros Hnil; rewrite Hnil in Hg; destruct Hg).
  unfold process_event in Hg, Hne.
  destruct (examine env event) as [[| d0 ht at_ h a] |] eqn:Hex;
    cbn [emit fst] in Hg, Hne; try congruence.
  assert (Hday : game_day g = d0).
  { destruct (try! i <- Py.get ht "id" (VInt 0) in py_int env i);
      cbn [fst] in Hg; [| destruct Hg].
    destruct (try! i <- Py.get at_ "id" (VInt 0) in py_int env i);
      cbn [fst] in Hg.
    - destruct Hg as [<- | [<- | []]]; reflexivity.
    - destruct Hg as [<- | []]; reflexivity. }
  apply examine_emit_date in Hex as (game_date & Hget & Hdate).
  unfold game_date_only in Hdate.
  destruct game_date as [| | | s | |]; try discriminate.
  destruct (fromisoformat env (replace_Z s)) as [dt |] eqn:Hiso; [| discriminate].
  destruct (et_date dt) as [d |] eqn:Het; [| discriminate].
  injection Hdate as <-.
  exists s, dt, d. repeat split; auto.
  - intros Hh. unfold et_date in Het.
    destruct (Z.leb_spec 5 (hour dt)); [now injection Het | lia].
  - intros Hh. unfold et_date in Het.
    destruct (Z.leb_spec 5 (hour dt)); [lia | exact Het].
Qed.

Lemma game_day_utc_minus_5_witness :
  In (mk_game "2025-10-22" 13 "LAL" "LAL vs. GS" true)
     (fst (process_event (Sample.env (mk_date 2025 11 15)) Sample.two_way)) /\
  exists s dt d,
    Py.get Sample.two_way "date" (VStr "") = Ok (VStr s) /\
    fromisoformat (Sample.env (mk_date 2025 11 15)) (replace_Z s) = Some dt /\
    game_day (mk_game "2025-10-22" 13 "LAL" "LAL vs. GS" true) = date_str d /\
    (5 <= hour dt -> d = dt_date dt) /\
    (hour dt < 5 -> prev_day (dt_date dt) = Ok d).
Proof.
  assert (Hin : In (mk_game "2025-10-22" 13 "LAL" "LAL vs. GS" true)
     (fst (process_event (Sample.env (mk_date 2025 11 15)) Sample.two_way)))
    by (left; reflexivity).
  split; [exact Hin |].
  exact (game_day_utc_minus_5 _ _ _ Hin).
Defined.

(** X17. The schedule fetch never returns an empty envelope: when it
    returns one, it holds at least one entry, names its source
    ["ESPN API"] and carries the clock reading taken at the end of the
    fetch; with no entry collected the result is [None]. *)
Theorem schedule_envelope_not_empty (env : Env) (start_date end_date : Z)
        (s s' : NetState) (e : Schedule.envelope) :
  fetch_schedule_espn env start_date end_date s = (Ok (Some e), s') ->
  Schedule.games e <> [] /\
  Schedule.source e = "ESPN API" /\
  Schedule.updated_at e = now_iso env (tick s').
Proof.
  unfold fetch_schedule_espn, bind.
  destruct (chunk_loop env _ start_date end_date [] s) as [[[all_games |] |] s1];
    try discriminate.
  destruct all_games as [| g l]; [discriminate |].
  intros [= <- <-]. cbn. repeat split. discriminate.
Qed.

Lemma schedule_envelope_not_empty_witness :
  exists e s',
    fetch_schedule_espn (Sample.env (mk_date 2025 11 15)) 739525 739527
                        Sample.start = (Ok (Some e), s') /\
    Schedule.games e <> [].
Proof.
  eexists. eexists.
  assert (Hrun : fetch_schedule_espn (Sample.env (mk_date 2025 11 15))
                   739525 739527 Sample.start = (Ok (Some _), _))
    by (vm_compute; reflexivity).
  split; [exact Hrun |].
  exact (proj1 (schedule_envelope_not_empty _ _ _ _ _ _ Hrun)).
Defined.

(** X18. [save_json] never raises and touches neither the network
    state nor a file of another name.  It reports [True] exactly when it
    was given a document and the disk took it, and then the file holds
    that document; when it reports [False] the file is as it was, or
    truncated by the failed dump, never another document. *)
Theorem save_json_outcome (env : Env) (data : option document)
        (filename : string) (w : World) :
  exists written w',
    save_json env data filename w = (Ok written, w') /\
    net w' = net w /\
    (forall other, other <> filename -> files w' !! other = files w !! other) /\
    (written = true <->
     (exists d, data = Some d) /\ disk env filename = Written) /\
    (written = true ->
     exists d, data = Some d /\ files w' !! filename = Some (Complete d)) /\
    (written = false ->
     files w' !! filename = files w !! filename \/
     files w' !! filename = Some Truncated) /\
    (data = None -> w' = w).
Proof.
  unfold save_json.
  destruct data as [d |]; [destruct (disk env filename) eqn:Hdisk |].
  - exists false, w. split; [reflexivity |]. split; [reflexivity |].
    split; [reflexivity |]. split; [split; [discriminate | intros [_ [=]]] |].
    split; [discriminate |]. split; [auto | discriminate].
  - eexists false, _. split; [reflexivity |]. cbn [net files].
    split; [reflexivity |].
    split; [intros other Hother; now rewrite lookup_insert_ne by congruence |].
    split; [split; [discriminate | intros [_ [=]]] |].
    split; [discriminate |]. split; [| discriminate].
    intros _. right. apply lookup_insert_eq.
  - eexists true, _. split; [reflexivity |]. cbn [net files].
    split; [reflexivity |].
    split; [intros other Hother; now rewrite lookup_insert_ne by congruence |].
    split; [split; eauto |].
    split; [| split; discriminate].
    intros _. exists d. split; [reflexivity | apply lookup_insert_eq].
  - exists false, w. split; [reflexivity |]. split; [reflexivity |].
    split; [reflexivity |].
    split; [split; [discriminate | intros [[d [=]] _]] |].
    split; [discriminate |]. split; auto.
Qed.

Lemma save_json_outcome_witness :
  exists written w',
    save_json (Sample.env (mk_date 2025 11 15)) None "player_stats_l7.json"
              (mk_world Sample.start ∅) = (Ok written, w') /\
    w' = mk_world Sample.start ∅.
Proof.
  destruct (save_json_outcome (Sample.env (mk_date 2025 11 15)) None
              "player_stats_l7.json" (mk_world Sample.start ∅))
    as (written & w' & Hsave & _ & _ & _ & _ & _ & Hnone).
  exists written, w'. split; [exact Hsave | now apply Hnone].
Defined.


(* ===================================================================== *)
(** * Properties: the exit status of a run *)
(* ===================================================================== *)






Example run_three_of_five :
  let run := main (with_disk (Sample.env (mk_date 2025 11 15))
                             (Sample.disk_down ["player_stats_l14.json"]))
                  (mk_world (mk_net 3 []) ∅) in
  fst run = Ok 0 /\ complete_artifacts "2025-26" (snd run) = 3.
Proof. vm_compute. split; reflexivity. Qed.

Example run_two_of_five :
  let run := main (with_disk (Sample.env (mk_date 2025 11 15))
                             (Sample.disk_down ["player_stats_l7.json";
                                                "player_stats_l14.json"]))
                  (mk_world (mk_net 3 []) ∅) in
  fst run = Ok 1 /\ complete_artifacts "2025-26" (snd run) = 2.
Proof. vm_compute. split; reflexivity. Qed.
